(** * The Lambda-layer script generator (src/lambda-layer-generator.js)

    A shallow embedding of the page script: the two closure variables
    [selectedVersion] and [packageManager], the two form fields read by
    [generateCode], the text written to the [generatedCode] element, and the
    event handlers installed on [DOMContentLoaded].

    JavaScript strings are sequences of UTF-16 code units; they are modelled
    as lists of code units so that [String.prototype.trim] can be given its
    ECMAScript meaning on every input. *)

From Stdlib Require Import List NArith Ascii String Bool Arith Lia.
Import ListNotations.

(** ** JavaScript strings *)

Module Js.

Definition str := list N.

(** The code units of an ASCII literal. *)
Definition lit (s : string) : str :=
  List.map N_of_ascii (list_ascii_of_string s).

Definition LF : N := 10%N.

(** [WhiteSpace] and [LineTerminator] of ECMAScript, the code points that
    [trim] strips: TAB, VT, FF, SP, NBSP, ZWNBSP, the category Zs, and
    LF, CR, LS, PS. *)
Definition is_ws (c : N) : bool :=
  ((9 <=? c) && (c <=? 13) || (c =? 32) || (c =? 160) || (c =? 5760)
   || (8192 <=? c) && (c <=? 8202) || (c =? 8232) || (c =? 8233)
   || (c =? 8239) || (c =? 8287) || (c =? 12288) || (c =? 65279))%N.

Fixpoint trimStart (s : str) : str :=
  match s with
  | [] => []
  | c :: s' => if is_ws c then trimStart s' else s
  end.

Definition trimEnd (s : str) : str := rev (trimStart (rev s)).

(** [s.trim()] *)
Definition trim (s : str) : str := trimEnd (trimStart s).

Fixpoint eqb (a b : str) : bool :=
  match a, b with
  | [], [] => true
  | x :: a', y :: b' => (x =? y)%N && eqb a' b'
  | _, _ => false
  end.

(** [s.startsWith(p)] *)
Fixpoint startsWith (p s : str) : bool :=
  match p, s with
  | [], _ => true
  | x :: p', y :: s' => (x =? y)%N && startsWith p' s'
  | _ :: _, [] => false
  end.

(** [s.replace(pat, rep)] for a string pattern: the first occurrence only;
    [rep] is taken literally (the script only passes the empty string). *)
Fixpoint replace (pat rep s : str) : str :=
  if startsWith pat s then rep ++ skipn (List.length pat) s
  else match s with
       | [] => []
       | c :: s' => c :: replace pat rep s'
       end.

(** [a || b] on strings: the empty string is the only falsy string. *)
Definition or (a b : str) : str :=
  match a with
  | [] => b
  | _ :: _ => a
  end.

(** The lines of a text, split at LF ([s.split('\n')]). *)
Fixpoint lines (s : str) : list str :=
  match s with
  | [] => [[]]
  | c :: s' =>
      if (c =? LF)%N then [] :: lines s'
      else match lines s' with
           | [] => [[c]]
           | l :: ls => (c :: l) :: ls
           end
  end.

(** Number of positions of [s] at which [p] occurs. *)
Fixpoint occ (p s : str) : nat :=
  match s with
  | [] => 0
  | _ :: s' => (if startsWith p s then 1 else 0) + occ p s'
  end.

End Js.

Notation "'js' s" := (Js.lit s%string) (at level 9, s at level 0, only parsing).

(** ** The page state *)

(** What the script keeps between events: its two [let] variables, the
    values of the two form fields, the [textContent] of the output element
    and the [selected] class of the two package-manager buttons. *)
Record State := mkState {
  selectedVersion : Js.str;
  packageManager : Js.str;
  librariesValue : Js.str;      (* librariesTextarea.value *)
  zipNameValue : Js.str;        (* zipNameInput.value *)
  generatedCode : Js.str;       (* generatedCodeElement.textContent *)
  pyenvBtnSelected : bool;      (* pyenvBtn.classList.contains('selected') *)
  uvBtnSelected : bool          (* uvBtn.classList.contains('selected') *)
}.

(** ** generateCode *)

Section Template.

Variables pyVersion requirementsContent zipName pyShortVersion : Js.str.

(** The template literal of the [pyenv] branch. *)
Definition pyenvTemplate : Js.str :=
  js"mkdir -p layer-build/ && cd layer-build/
pyenv local " ++ pyVersion ++ js"
pyenv which python

cat << EOF > requirements.txt
" ++ requirementsContent ++ js"
EOF

python -m venv create_layer
source create_layer/bin/activate
pip install -r requirements.txt
mkdir -p python
cp -r create_layer/lib python/
zip -r " ++ zipName ++ js"-py" ++ pyShortVersion ++ js".zip python

# Cleanup
deactivate
rm -rf create_layer/ python/
".

(** The template literal of the [else] branch. *)
Definition uvTemplate : Js.str :=
  js"mkdir -p layer-build/ && cd layer-build/
cat << EOF > requirements.txt
" ++ requirementsContent ++ js"
EOF

uv venv --python " ++ pyVersion ++ js" create_layer/
source create_layer/bin/activate
uv pip install -r requirements.txt
mkdir -p python
cp -r create_layer/lib python/
zip -r " ++ zipName ++ js"-py" ++ pyShortVersion ++ js".zip python

# Cleanup
deactivate
rm -rf create_layer/ python/
".

End Template.

Definition libraries (st : State) : Js.str := Js.trim (librariesValue st).

Definition zipName (st : State) : Js.str :=
  Js.or (Js.trim (zipNameValue st)) js"lambda-layer".

Definition pyVersion (st : State) : Js.str := selectedVersion st.

Definition pyShortVersion (st : State) : Js.str :=
  Js.replace js"." js"" (pyVersion st).

Definition requirementsContent (st : State) : Js.str :=
  Js.or (libraries st) js"requests==2.32.3".

(** The value of [code] at the end of [generateCode]. *)
Definition code (st : State) : Js.str :=
  if Js.eqb (packageManager st) js"pyenv"
  then pyenvTemplate (pyVersion st) (requirementsContent st)
                     (zipName st) (pyShortVersion st)
  else uvTemplate (pyVersion st) (requirementsContent st)
                  (zipName st) (pyShortVersion st).

Definition setCode (c : Js.str) (st : State) : State :=
  mkState (selectedVersion st) (packageManager st) (librariesValue st)
          (zipNameValue st) c (pyenvBtnSelected st) (uvBtnSelected st).

(** [generateCode()]: the text is assigned to the [textContent] of the
    output element.  [Prism.highlightElement] then renders the element anew
    from that text; what the library makes of it (it turns U+00A0 into a
    blank, for one) is outside the script and is not modelled:
    [generatedCode] after [generateCode] is the text assigned. *)
Definition generateCode (st : State) : State := setCode (code st) st.

(** ** Event handlers *)

Definition setSelectedVersion (v : Js.str) (st : State) : State :=
  mkState v (packageManager st) (librariesValue st) (zipNameValue st)
          (generatedCode st) (pyenvBtnSelected st) (uvBtnSelected st).

Definition setPackageManager (pm : Js.str) (st : State) : State :=
  mkState (selectedVersion st) pm (librariesValue st) (zipNameValue st)
          (generatedCode st) (pyenvBtnSelected st) (uvBtnSelected st).

Definition setLibrariesValue (s : Js.str) (st : State) : State :=
  mkState (selectedVersion st) (packageManager st) s (zipNameValue st)
          (generatedCode st) (pyenvBtnSelected st) (uvBtnSelected st).

Definition setZipNameValue (s : Js.str) (st : State) : State :=
  mkState (selectedVersion st) (packageManager st) (librariesValue st) s
          (generatedCode st) (pyenvBtnSelected st) (uvBtnSelected st).

Definition setBtnClasses (p u : bool) (st : State) : State :=
  mkState (selectedVersion st) (packageManager st) (librariesValue st)
          (zipNameValue st) (generatedCode st) p u.

(** Click on a [.version-btn] whose [dataset.version] is [v].  (The handler
    also moves the [selected] class between the version buttons, which
    nothing reads back.) *)
Definition versionClick (v : Js.str) (st : State) : State :=
  generateCode (setSelectedVersion v st).

Definition pyenvClick (st : State) : State :=
  generateCode (setPackageManager js"pyenv" (setBtnClasses true false st)).

Definition uvClick (st : State) : State :=
  generateCode (setPackageManager js"uv" (setBtnClasses false true st)).

(** [input] events: the field already holds its new value when the
    listener, [generateCode] itself, runs. *)
Definition librariesInput (s : Js.str) (st : State) : State :=
  generateCode (setLibrariesValue s st).

Definition zipNameInput (s : Js.str) (st : State) : State :=
  generateCode (setZipNameValue s st).

(** The name given to the download by the [downloadBtn] handler. *)
Definition downloadFilename (st : State) : Js.str :=
  js"lambda-layer-" ++ packageManager st ++ js"-py"
    ++ Js.replace js"." js"" (selectedVersion st) ++ js".sh".

Inductive Event :=
| VersionClick (v : Js.str)
| PyenvClick
| UvClick
| LibrariesInput (s : Js.str)
| ZipNameInput (s : Js.str)
| CopyClick
| DownloadClick.

(** Copy and download hand [generatedCode] to the clipboard and to a data
    URL; they write nothing the script reads. *)
Definition handle (e : Event) (st : State) : State :=
  match e with
  | VersionClick v => versionClick v st
  | PyenvClick => pyenvClick st
  | UvClick => uvClick st
  | LibrariesInput s => librariesInput s st
  | ZipNameInput s => zipNameInput s st
  | CopyClick => st
  | DownloadClick => st
  end.

(** [DOMContentLoaded]: the two variables get their initial values and
    [generateCode] runs once.  The initial contents of the form fields, of
    the output element and of the button classes come from the page. *)
Definition onLoad (libs zip out : Js.str) (p u : bool) : State :=
  generateCode (mkState js"3.10" js"pyenv" libs zip out p u).

Inductive reachable : State -> Prop :=
| reach_load : forall libs zip out p u, reachable (onLoad libs zip out p u)
| reach_event : forall e st, reachable st -> reachable (handle e st).

Definition run (es : list Event) (st : State) : State :=
  fold_left (fun s e => handle e s) es st.

(** Modelled from the spec: the version buttons of the page live in
    index.html, which is not among the sources; the spec gives the
    enumerated set as "3.9".."3.13". *)
Definition supportedVersions : list Js.str :=
  [js"3.9"; js"3.10"; js"3.11"; js"3.12"; js"3.13"].

(** The two package managers the page offers. *)
Definition supportedManagers : list Js.str := [js"pyenv"; js"uv"].

(** ** Landmarks of the generated script *)

Definition heredocOpen : Js.str := js"cat << EOF > requirements.txt" ++ [Js.LF].
Definition heredocClose : Js.str := Js.LF :: js"EOF" ++ [Js.LF].

(** The archive command for a base name and a short version. *)
Definition zipCommand (name short : Js.str) : Js.str :=
  js"zip -r " ++ name ++ js"-py" ++ short ++ js".zip python".

Definition cleanupCommands : Js.str :=
  js"# Cleanup" ++ Js.LF :: js"deactivate" ++ Js.LF
    :: js"rm -rf create_layer/ python/".

(** The lines of a script that run [zip]. *)
Definition archiveLines (text : Js.str) : list Js.str :=
  filter (Js.startsWith js"zip ") (Js.lines text).

(** The commands in front of the manifest heredoc. *)
Definition scriptSetup (pm v : Js.str) : Js.str :=
  if Js.eqb pm js"pyenv"
  then js"mkdir -p layer-build/ && cd layer-build/
pyenv local " ++ v ++ js"
pyenv which python

"
  else js"mkdir -p layer-build/ && cd layer-build/
".

(** The commands between the manifest heredoc and the archive command. *)
Definition scriptInstall (pm v : Js.str) : Js.str :=
  if Js.eqb pm js"pyenv"
  then js"
python -m venv create_layer
source create_layer/bin/activate
pip install -r requirements.txt
mkdir -p python
cp -r create_layer/lib python/
"
  else js"
uv venv --python " ++ v ++ js" create_layer/
source create_layer/bin/activate
uv pip install -r requirements.txt
mkdir -p python
cp -r create_layer/lib python/
".

(** A text from its lines, each closed by LF. *)
Definition unlines (ls : list Js.str) : Js.str :=
  List.concat (List.map (fun l => l ++ [Js.LF]) ls).

Definition noLF (s : Js.str) : bool := forallb (fun c => negb (c =? Js.LF)%N) s.

(** The lines up to and including the heredoc opener. *)
Definition setupLines (pm v : Js.str) : list Js.str :=
  if Js.eqb pm js"pyenv"
  then [js"mkdir -p layer-build/ && cd layer-build/";
        js"pyenv local " ++ v;
        js"pyenv which python";
        js"";
        js"cat << EOF > requirements.txt"]
  else [js"mkdir -p layer-build/ && cd layer-build/";
        js"cat << EOF > requirements.txt"].

(** The lines from the heredoc terminator to the last staging command. *)
Definition installLines (pm v : Js.str) : list Js.str :=
  if Js.eqb pm js"pyenv"
  then [js"EOF";
        js"";
        js"python -m venv create_layer";
        js"source create_layer/bin/activate";
        js"pip install -r requirements.txt";
        js"mkdir -p python";
        js"cp -r create_layer/lib python/"]
  else [js"EOF";
        js"";
        js"uv venv --python " ++ v ++ js" create_layer/";
        js"source create_layer/bin/activate";
        js"uv pip install -r requirements.txt";
        js"mkdir -p python";
        js"cp -r create_layer/lib python/"].

Definition cleanupLines : list Js.str :=
  [js"# Cleanup"; js"deactivate"; js"rm -rf create_layer/ python/"].

(** A non-empty line without white space, such as a heredoc terminator. *)
Definition solid (x : Js.str) : bool :=
  match x with
  | [] => false
  | _ :: _ => forallb (fun c => negb (Js.is_ws c)) x
  end.

(** A page holding the given selections and field contents, nothing
    generated yet. *)
Definition config (v pm libs zip : Js.str) : State :=
  mkState v pm libs zip [] false false.

(** Occurrences of [p] that start inside the first piece [a] of [a ++ b]. *)
Fixpoint occInto (p a b : Js.str) : nat :=
  match a with
  | [] => 0
  | _ :: a' => (if Js.startsWith p (a ++ b) then 1 else 0) + occInto p a' b
  end.

(** No proper, non-empty tail of [p] starts [b]: an occurrence of [p] cannot
    begin before [b] and end inside it. *)
Definition noCross (p b : Js.str) : bool :=
  forallb (fun k => negb (Js.startsWith (skipn k p) b))
          (seq 1 (List.length p - 1)).

Definition allWs (s : Js.str) : bool := forallb Js.is_ws s.

(** ** The version buttons *)

(** A [.version-btn] element: its [data-version] attribute and whether its
    class list holds [selected]. *)
Record VersionBtn := mkVersionBtn {
  datasetVersion : Js.str;
  btnSelected : bool
}.

(** [b.classList.remove('selected')] and [btn.classList.add('selected')] *)
Definition classRemoveSelected (b : VersionBtn) : VersionBtn :=
  mkVersionBtn (datasetVersion b) false.

Definition classAddSelected (b : VersionBtn) : VersionBtn :=
  mkVersionBtn (datasetVersion b) true.

Fixpoint updateAt {A : Type} (i : nat) (f : A -> A) (l : list A) : list A :=
  match l, i with
  | [], _ => []
  | x :: l', O => f x :: l'
  | x :: l', S i' => x :: updateAt i' f l'
  end.

(** The click listener of the [i]-th element of [versionButtons], on the
    buttons and the page state: every button loses [selected], the clicked
    one gets it, its version is stored and the script generated.  An index
    past the node list has no button and so no listener. *)
Definition versionBtnClick (i : nat) (page : list VersionBtn * State)
  : list VersionBtn * State :=
  match nth_error (fst page) i with
  | None => page
  | Some btn =>
      (updateAt i classAddSelected (List.map classRemoveSelected (fst page)),
       generateCode (setSelectedVersion (datasetVersion btn) (snd page)))
  end.

(** ** The copy button *)

(** The label of the copy button and the [originalText] values held by the
    timeouts that are still pending, oldest first (all timeouts have the
    same delay, so they run in the order they were set). *)
Record CopyBtn := mkCopyBtn {
  copyInnerHTML : Js.str;
  copyPending : list Js.str
}.

Definition copiedLabel : Js.str := js"<span>Copied!</span>".

(** The [then] callback: the label is saved, replaced, and a timeout is set
    that will write the saved label back. *)
Definition copyFulfilled (b : CopyBtn) : CopyBtn :=
  mkCopyBtn copiedLabel (copyPending b ++ [copyInnerHTML b]).

(** The callback of the oldest pending timeout. *)
Definition copyTimeout (b : CopyBtn) : CopyBtn :=
  match copyPending b with
  | [] => b
  | originalText :: rest => mkCopyBtn originalText rest
  end.

Inductive CopyEvent :=
| Fulfilled      (* writeText resolved *)
| Rejected       (* writeText rejected: no callback is registered *)
| TimeoutFired.

Definition copyStep (e : CopyEvent) (b : CopyBtn) : CopyBtn :=
  match e with
  | Fulfilled => copyFulfilled b
  | Rejected => b
  | TimeoutFired => copyTimeout b
  end.

Definition copyRun (es : list CopyEvent) (b : CopyBtn) : CopyBtn :=
  fold_left (fun b e => copyStep e b) es b.

(** ** The download link *)

(** [encodeURIComponent]: the unreserved set of ECMAScript, letters, digits
    and [- _ . ! ~ * ' ( )]. *)
Definition isUnreserved (c : N) : bool :=
  ((65 <=? c) && (c <=? 90) || (97 <=? c) && (c <=? 122)
   || (48 <=? c) && (c <=? 57)
   || (c =? 45) || (c =? 95) || (c =? 46) || (c =? 33) || (c =? 126)
   || (c =? 42) || (c =? 39) || (c =? 40) || (c =? 41))%N.

Definition isLeadSurrogate (c : N) : bool := ((55296 <=? c) && (c <=? 56319))%N.
Definition isTrailSurrogate (c : N) : bool := ((56320 <=? c) && (c <=? 57343))%N.

(** The code point of a surrogate pair. *)
Definition pairCodePoint (lead trail : N) : N :=
  ((lead - 55296) * 1024 + (trail - 56320) + 65536)%N.

(** The octets of the UTF-8 encoding of a code point. *)
Definition utf8 (cp : N) : list N :=
  (if cp <? 128 then [cp]
   else if cp <? 2048 then [192 + cp / 64; 128 + cp mod 64]
   else if cp <? 65536
        then [224 + cp / 4096; 128 + (cp / 64) mod 64; 128 + cp mod 64]
   else [240 + cp / 262144; 128 + (cp / 4096) mod 64;
         128 + (cp / 64) mod 64; 128 + cp mod 64])%N.

(** An upper-case hexadecimal digit. *)
Definition hexDigit (n : N) : N := (if n <? 10 then 48 + n else 55 + n)%N.

(** ["%XX"] for an octet. *)
Definition pctOctet (b : N) : Js.str :=
  [37%N; hexDigit (b / 16); hexDigit (b mod 16)].

Definition pctEncode (cp : N) : Js.str := flat_map pctOctet (utf8 cp).

(** [encodeURIComponent(s)]; [None] stands for the [URIError] thrown at an
    unpaired surrogate. *)
Fixpoint encodeURIComponent (s : Js.str) : option Js.str :=
  match s with
  | [] => Some []
  | c :: s' =>
      if isUnreserved c then option_map (cons c) (encodeURIComponent s')
      else if isTrailSurrogate c then None
      else if isLeadSurrogate c then
        match s' with
        | [] => None
        | d :: s'' =>
            if isTrailSurrogate d
            then option_map (app (pctEncode (pairCodePoint c d)))
                            (encodeURIComponent s'')
            else None
        end
      else option_map (app (pctEncode c)) (encodeURIComponent s')
  end.

(** The [href] the download handler gives its link; [None] when
    [encodeURIComponent] throws and the handler stops there. *)
Definition downloadHref (st : State) : option Js.str :=
  option_map (app js"data:text/plain;charset=utf-8,")
             (encodeURIComponent (generatedCode st)).

(** The value of a hexadecimal digit. *)
Definition hexValue (c : N) : option N :=
  (if (48 <=? c) && (c <=? 57) then Some (c - 48)
   else if (65 <=? c) && (c <=? 70) then Some (c - 55)
   else if (97 <=? c) && (c <=? 102) then Some (c - 87)
   else None)%N.

(** Percent-decoding, as the reader of a [data:] URL does it: ["%XX"]
    becomes one octet, everything else stands for itself. *)
Fixpoint pctDecode (s : Js.str) : list N :=
  match s with
  | [] => []
  | c :: s' =>
      match s' with
      | h :: l :: s'' =>
          match (if (c =? 37)%N then hexValue h else None), hexValue l with
          | Some a, Some b => (16 * a + b)%N :: pctDecode s''
          | _, _ => c :: pctDecode s'
          end
      | _ => c :: pctDecode s'
      end
  end.

Definition isSurrogate (c : N) : bool := isLeadSurrogate c || isTrailSurrogate c.

Definition noSurrogates (s : Js.str) : bool :=
  forallb (fun c => negb (isSurrogate c)) s.

(** UTF-16 code units are below 2^16. *)
Definition codeUnits (s : Js.str) : bool := forallb (fun c => c <? 65536)%N s.

Definition isAscii (s : Js.str) : bool := forallb (fun c => c <? 128)%N s.

(** Well-formed UTF-16: every surrogate is half of a pair, a leading one
    followed by a trailing one. *)
Inductive wellFormed : Js.str -> Prop :=
| wf_nil : wellFormed []
| wf_unit : forall c s,
    isSurrogate c = false -> wellFormed s -> wellFormed (c :: s)
| wf_pair : forall c d s,
    isLeadSurrogate c = true -> isTrailSurrogate d = true ->
    wellFormed s -> wellFormed (c :: d :: s).

(** What a URL may hold unescaped after [encodeURIComponent]: the
    unreserved set and the percent sign. *)
Definition uriSafe (c : N) : bool := isUnreserved c || (c =? 37)%N.

(** ** Listeners without their final [generateCode()] *)

(** The assignments a listener makes before it calls [generateCode]. *)
Definition assign (e : Event) (st : State) : State :=
  match e with
  | VersionClick v => setSelectedVersion v st
  | PyenvClick => setPackageManager js"pyenv" (setBtnClasses true false st)
  | UvClick => setPackageManager js"uv" (setBtnClasses false true st)
  | LibrariesInput s => setLibrariesValue s st
  | ZipNameInput s => setZipNameValue s st
  | CopyClick => st
  | DownloadClick => st
  end.

Definition isManagerClick (e : Event) : bool :=
  match e with
  | PyenvClick | UvClick => true
  | _ => false
  end.

(** * Facts about the string operations *)

Section StringFacts.

Implicit Types s p a b : Js.str.

Lemma eqb_spec a b : Js.eqb a b = true <-> a = b.
Proof.
  revert b; induction a as [|x a IH]; intros [|y b]; simpl;
    try (split; [discriminate | discriminate]); try tauto.
  rewrite andb_true_iff, N.eqb_eq, IH.
  split; [intros [-> ->]; reflexivity | intros H; injection H; auto].
Qed.

Lemma eqb_neq a b : a <> b -> Js.eqb a b = false.
Proof.
  intros H. destruct (Js.eqb a b) eqn:E; [|reflexivity].
  apply eqb_spec in E. contradiction.
Qed.

Lemma startsWith_spec p s :
  Js.startsWith p s = true <-> exists t, s = p ++ t.
Proof.
  revert s; induction p as [|x p IH]; intros s; simpl.
  - split; [exists s; reflexivity | reflexivity].
  - destruct s as [|y s].
    + split; [discriminate | intros [t H]; discriminate].
    + rewrite andb_true_iff, N.eqb_eq, IH. split.
      * intros [-> [t ->]]. exists t. reflexivity.
      * intros [t H]. injection H as -> ->. eauto.
Qed.

Lemma trimStart_allWs s : allWs s = true -> Js.trimStart s = [].
Proof.
  induction s as [|c s IH]; simpl; [reflexivity|].
  intros H. apply andb_true_iff in H as [Hc Hs]. rewrite Hc. auto.
Qed.

Lemma trimStart_split s :
  exists l, s = l ++ Js.trimStart s /\ allWs l = true.
Proof.
  induction s as [|c s [l [E W]]]; simpl.
  - exists []. auto.
  - destruct (Js.is_ws c) eqn:Hc.
    + exists (c :: l). simpl. rewrite Hc, W, <- E. auto.
    + exists []. auto.
Qed.

Lemma trimStart_head s c t : Js.trimStart s = c :: t -> Js.is_ws c = false.
Proof.
  induction s as [|d s IH]; simpl; [discriminate|].
  destruct (Js.is_ws d) eqn:Hd; [exact IH|].
  intros H. injection H as -> _. exact Hd.
Qed.

Lemma allWs_app a b : allWs (a ++ b) = allWs a && allWs b.
Proof. apply forallb_app. Qed.

Lemma allWs_rev a : allWs (rev a) = allWs a.
Proof.
  induction a as [|c a IH]; simpl; [reflexivity|].
  rewrite allWs_app, IH. simpl. rewrite andb_true_r. apply andb_comm.
Qed.

Lemma trimEnd_split s :
  exists r, s = Js.trimEnd s ++ r /\ allWs r = true.
Proof.
  unfold Js.trimEnd.
  destruct (trimStart_split (rev s)) as [l [E W]].
  exists (rev l). split.
  - rewrite <- rev_app_distr, <- E, rev_involutive. reflexivity.
  - rewrite allWs_rev. exact W.
Qed.

(** [trim] removes a run of white space at each end and nothing else. *)
Lemma trim_split s :
  exists l r, s = l ++ Js.trim s ++ r /\ allWs l = true /\ allWs r = true.
Proof.
  unfold Js.trim.
  destruct (trimStart_split s) as [l [E W]].
  destruct (trimEnd_split (Js.trimStart s)) as [r [E' W']].
  exists l, r. split; [|auto].
  rewrite <- E'. exact E.
Qed.

Lemma trim_allWs s : allWs s = true -> Js.trim s = [].
Proof.
  intros H. unfold Js.trim. rewrite trimStart_allWs by exact H. reflexivity.
Qed.

Lemma trim_nil_allWs s : Js.trim s = [] -> allWs s = true.
Proof.
  intros H. destruct (trim_split s) as (l & r & E & Wl & Wr).
  rewrite H in E. simpl in E. rewrite E, allWs_app, Wl, Wr. reflexivity.
Qed.

Lemma trimEnd_last s t c : Js.trimEnd s = t ++ [c] -> Js.is_ws c = false.
Proof.
  unfold Js.trimEnd. intros H.
  apply (f_equal (@rev N)) in H.
  rewrite rev_involutive, rev_app_distr in H. simpl in H.
  eapply trimStart_head; eassumption.
Qed.

Lemma trimEnd_head s c t :
  Js.trimEnd s = c :: t -> exists t', s = c :: t'.
Proof.
  intros H. destruct (trimEnd_split s) as [r [E _]].
  rewrite H in E. exists (t ++ r). exact E.
Qed.

Lemma trim_head s c t : Js.trim s = c :: t -> Js.is_ws c = false.
Proof.
  unfold Js.trim. intros H.
  destruct (trimEnd_head _ _ _ H) as [t' E].
  eapply trimStart_head; eassumption.
Qed.

Lemma trim_last s t c : Js.trim s = t ++ [c] -> Js.is_ws c = false.
Proof. unfold Js.trim. apply trimEnd_last. Qed.

(** A text that neither starts nor ends with white space is left alone. *)
Lemma trim_fix c m d :
  Js.is_ws c = false -> Js.is_ws d = false ->
  Js.trim (c :: m ++ [d]) = c :: m ++ [d].
Proof.
  intros Hc Hd. unfold Js.trim. simpl. rewrite Hc.
  unfold Js.trimEnd.
  change (c :: m ++ [d]) with ((c :: m) ++ [d]).
  rewrite rev_app_distr. simpl. rewrite Hd.
  simpl. rewrite rev_app_distr, rev_involutive. reflexivity.
Qed.

(** ** Occurrences *)

Lemma startsWith_refl p s : Js.startsWith p (p ++ s) = true.
Proof. apply startsWith_spec. eauto. Qed.

(** Where an occurrence of [p] at the start of [a ++ b] can lie: inside
    [a], or across the seam with [a] a proper head of [p]. *)
Lemma startsWith_app p a b :
  Js.startsWith p (a ++ b)
  = Js.startsWith p a
    || (List.length a <? List.length p)
       && Js.eqb (firstn (List.length a) p) a
       && Js.startsWith (skipn (List.length a) p) b.
Proof.
  revert a; induction p as [|x p IH]; intros a.
  - reflexivity.
  - destruct a as [|y a].
    + reflexivity.
    + cbn [Js.startsWith app List.length firstn skipn Js.eqb].
      rewrite IH.
      change (S (List.length a) <? S (List.length p))
        with (List.length a <? List.length p).
      destruct (x =? y)%N, (Js.startsWith p a),
        (List.length a <? List.length p),
        (Js.eqb (firstn (List.length a) p) a); reflexivity.
Qed.

Lemma noCross_spec p b k :
  noCross p b = true -> 0 < k < List.length p ->
  Js.startsWith (skipn k p) b = false.
Proof.
  unfold noCross. intros H Hk.
  rewrite forallb_forall in H.
  apply negb_true_iff, H, in_seq. lia.
Qed.

Lemma occ_app_lit p a b : Js.occ p (a ++ b) = occInto p a b + Js.occ p b.
Proof.
  induction a as [|c a IH]; [reflexivity|].
  cbn [app Js.occ occInto]. rewrite IH.
  change (c :: a ++ b) with ((c :: a) ++ b). lia.
Qed.

Lemma occInto_noCross p a b : noCross p b = true -> occInto p a b = Js.occ p a.
Proof.
  intros H. induction a as [|c a IH]; [reflexivity|].
  cbn [Js.occ occInto]. rewrite IH. f_equal.
  rewrite startsWith_app.
  destruct (List.length (c :: a) <? List.length p) eqn:L.
  - apply Nat.ltb_lt in L.
    rewrite (noCross_spec _ _ _ H) by (simpl in *; lia).
    rewrite andb_false_r, orb_false_r. reflexivity.
  - rewrite orb_false_r. reflexivity.
Qed.

(** Occurrences split at a seam that no occurrence can cross. *)
Lemma occ_app p a b :
  noCross p b = true -> Js.occ p (a ++ b) = Js.occ p a + Js.occ p b.
Proof. intros H. rewrite occ_app_lit, occInto_noCross by exact H. reflexivity. Qed.

Lemma occ_app_lit_eq p a b n :
  occInto p a b = n -> Js.occ p (a ++ b) = n + Js.occ p b.
Proof. intros <-. apply occ_app_lit. Qed.

(** A text that contains [p] somewhere has at least one occurrence. *)
Lemma occ_pos p pre post : p <> [] -> 0 < Js.occ p (pre ++ p ++ post).
Proof.
  intros Hp. induction pre as [|c pre IH].
  - destruct p as [|x p]; [contradiction|].
    cbn [app Js.occ].
    change (x :: p ++ post) with ((x :: p) ++ post).
    rewrite startsWith_refl. lia.
  - cbn [app Js.occ]. lia.
Qed.

(** ** Lines *)

Lemma lines_cons s : exists l ls, Js.lines s = l :: ls.
Proof.
  destruct s as [|c s]; simpl; [eauto|].
  destruct (c =? Js.LF)%N; [eauto|].
  destruct (Js.lines s); eauto.
Qed.

Lemma lines_app_LF a b : Js.lines (a ++ Js.LF :: b) = Js.lines a ++ Js.lines b.
Proof.
  induction a as [|c a IH]; [reflexivity|].
  cbn [app Js.lines]. rewrite IH.
  destruct (c =? Js.LF)%N; [reflexivity|].
  destruct (lines_cons a) as (l & ls & ->). reflexivity.
Qed.

Lemma lines_noLF s : ~ In Js.LF s -> Js.lines s = [s].
Proof.
  induction s as [|c s IH]; [reflexivity|].
  intros H. cbn [Js.lines].
  destruct (c =? Js.LF)%N eqn:E.
  - apply N.eqb_eq in E. exfalso. apply H. left. auto.
  - rewrite IH; [reflexivity|]. intros Hin. apply H. right. exact Hin.
Qed.

Lemma lines_allWs s :
  allWs s = true -> forall l, In l (Js.lines s) -> allWs l = true.
Proof.
  induction s as [|c s IH]; simpl.
  - intros _ l [<-|[]]. reflexivity.
  - intros H. apply andb_true_iff in H as [Hc Hs].
    destruct (c =? Js.LF)%N.
    + intros l [<-|Hl]; [reflexivity | auto].
    + destruct (lines_cons s) as (l0 & ls & E). rewrite E in *.
      intros l [<-|Hl].
      * simpl. rewrite Hc. apply IH; [exact Hs | left; reflexivity].
      * apply IH; [exact Hs | right; exact Hl].
Qed.

Lemma noLF_spec s : noLF s = true <-> ~ In Js.LF s.
Proof.
  unfold noLF. rewrite forallb_forall. split.
  - intros H Hin. apply H in Hin. discriminate.
  - intros H c Hc. apply negb_true_iff, N.eqb_neq. intros ->. auto.
Qed.

Lemma noLF_app a b : noLF (a ++ b) = noLF a && noLF b.
Proof. apply forallb_app. Qed.

Lemma lines_unlines_app ls rest :
  Forall (fun l => noLF l = true) ls ->
  Js.lines (unlines ls ++ rest) = ls ++ Js.lines rest.
Proof.
  unfold unlines. induction 1 as [|l ls Hl _ IH]; [reflexivity|].
  cbn [List.map List.concat]. rewrite <- !app_assoc. cbn [app].
  rewrite lines_app_LF, IH, lines_noLF by (apply noLF_spec; exact Hl).
  reflexivity.
Qed.

Lemma lines_unlines_flat ls rest :
  Js.lines (unlines ls ++ rest) = flat_map Js.lines ls ++ Js.lines rest.
Proof.
  unfold unlines. induction ls as [|l ls IH]; [reflexivity|].
  cbn [List.map List.concat flat_map]. rewrite <- !app_assoc. cbn [app].
  rewrite lines_app_LF, IH. reflexivity.
Qed.

(** The lines of [m ++ r]: those of [m], the last one continued by the
    first line of [r], then the other lines of [r]. *)
Lemma lines_app_split m r :
  exists init lst w ws,
    Js.lines m = init ++ [lst] /\ Js.lines r = w :: ws
    /\ Js.lines (m ++ r) = init ++ (lst ++ w) :: ws.
Proof.
  destruct (lines_cons r) as (w & ws & Er).
  induction m as [|c m (init & lst & w' & ws' & Em & Er' & E)].
  - exists [], [], w, ws. simpl. auto.
  - rewrite Er in Er'. injection Er' as <- <-.
    cbn [app Js.lines]. rewrite Em, E.
    destruct (c =? Js.LF)%N.
    + exists ([] :: init), lst, w, ws. auto.
    + destruct init as [|i0 init]; cbn [app].
      * exists [], (c :: lst), w, ws. auto.
      * exists ((c :: i0) :: init), lst, w, ws. auto.
Qed.

Lemma solid_not_allWs x : solid x = true -> allWs x = true -> False.
Proof.
  destruct x as [|c x]; simpl; [discriminate|].
  intros H1 H2. apply andb_true_iff in H1 as [H1 _].
  apply andb_true_iff in H2 as [H2 _].
  rewrite H2 in H1. discriminate.
Qed.

Lemma solid_app_ws_r a w : solid (a ++ w) = true -> allWs w = true -> w = [].
Proof.
  intros H W. destruct w as [|c w]; [reflexivity|]. exfalso.
  assert (forallb (fun c => negb (Js.is_ws c)) (a ++ c :: w) = true) as F
    by (destruct (a ++ c :: w); [discriminate | exact H]).
  rewrite forallb_app in F. simpl in F, W.
  apply andb_true_iff in W as [W _].
  rewrite W in F. simpl in F. rewrite andb_false_r in F. discriminate.
Qed.

Lemma solid_app_ws_l w a : solid (w ++ a) = true -> allWs w = true -> w = [].
Proof.
  intros H W. destruct w as [|c w]; [reflexivity|]. exfalso.
  simpl in H, W. apply andb_true_iff in W as [W _].
  rewrite W in H. discriminate.
Qed.

(** White space after a text neither makes nor breaks a solid line. *)
Lemma in_lines_app_ws_r x m r :
  allWs r = true -> solid x = true ->
  In x (Js.lines (m ++ r)) -> In x (Js.lines m).
Proof.
  intros W S.
  destruct (lines_app_split m r) as (init & lst & w & ws & Em & Er & ->).
  pose proof (lines_allWs r W) as Wl. rewrite Er in Wl.
  rewrite Em. intros H. apply in_app_or in H as [H|[H|H]].
  - apply in_or_app. left. exact H.
  - apply in_or_app. right. left. subst x.
    rewrite (solid_app_ws_r lst w S) by (apply Wl; left; reflexivity).
    symmetry. apply app_nil_r.
  - exfalso. apply (solid_not_allWs x S). apply Wl. right. exact H.
Qed.

Lemma in_lines_app_ws_l x l m :
  allWs l = true -> solid x = true ->
  In x (Js.lines (l ++ m)) -> In x (Js.lines m).
Proof.
  intros W S.
  destruct (lines_app_split l m) as (init & lst & w & ws & El & Em & ->).
  pose proof (lines_allWs l W) as Wl. rewrite El in Wl.
  rewrite Em. intros H. apply in_app_or in H as [H|[H|H]].
  - exfalso. apply (solid_not_allWs x S). apply Wl.
    apply in_or_app. left. exact H.
  - left. subst x.
    rewrite (solid_app_ws_l lst w S); [reflexivity|].
    apply Wl. apply in_or_app. right. left. reflexivity.
  - right. exact H.
Qed.

(** [trim] keeps every solid line of a text. *)
Lemma in_lines_trim x s :
  solid x = true -> In x (Js.lines s) -> In x (Js.lines (Js.trim s)).
Proof.
  intros S H. destruct (trim_split s) as (l & r & E & Wl & Wr).
  rewrite E in H.
  apply in_lines_app_ws_l in H; [|exact Wl|exact S].
  apply in_lines_app_ws_r in H; [exact H|exact Wr|exact S].
Qed.

(** ** replace *)

Lemma forallb_skipn (f : N -> bool) n s :
  forallb f s = true -> forallb f (skipn n s) = true.
Proof.
  intros H. rewrite <- (firstn_skipn n s), forallb_app in H.
  apply andb_true_iff in H. tauto.
Qed.

(** Deleting the first occurrence of a pattern adds no code unit. *)
Lemma forallb_replace_empty (f : N -> bool) pat s :
  forallb f s = true -> forallb f (Js.replace pat [] s) = true.
Proof.
  induction s as [|c s IH]; intros H.
  - cbn [Js.replace]. destruct (Js.startsWith pat []); [|reflexivity].
    cbn [app]. apply forallb_skipn. reflexivity.
  - cbn [Js.replace]. destruct (Js.startsWith pat (c :: s)).
    + cbn [app]. apply forallb_skipn. exact H.
    + simpl in *. apply andb_true_iff in H as [-> Hs]. auto.
Qed.

End StringFacts.

(** * The shape of the generated script *)

(** Both templates are the same sequence of steps: setup, manifest heredoc,
    install, archive command, blank line, cleanup. *)
Lemma code_shape st :
  code st
  = scriptSetup (packageManager st) (selectedVersion st)
      ++ heredocOpen ++ requirementsContent st ++ heredocClose
      ++ scriptInstall (packageManager st) (selectedVersion st)
      ++ zipCommand (zipName st) (pyShortVersion st)
      ++ Js.LF :: Js.LF :: cleanupCommands ++ [Js.LF].
Proof.
  unfold code, scriptSetup, scriptInstall, pyenvTemplate, uvTemplate,
    pyVersion, heredocOpen, heredocClose, zipCommand, cleanupCommands.
  destruct (Js.eqb (packageManager st) js"pyenv").
  - cbn [Js.lit list_ascii_of_string List.map N_of_ascii].
    repeat (rewrite <- ?app_assoc; cbn [app]). reflexivity.
  - cbn [Js.lit list_ascii_of_string List.map N_of_ascii].
    repeat (rewrite <- ?app_assoc; cbn [app]). reflexivity.
Qed.

Lemma noLF_pyShortVersion st :
  noLF (selectedVersion st) = true -> noLF (pyShortVersion st) = true.
Proof. apply forallb_replace_empty. Qed.

(** The same script, line by line. *)
Lemma code_unlines st :
  code st
  = unlines (setupLines (packageManager st) (selectedVersion st))
      ++ requirementsContent st
      ++ Js.LF :: unlines (installLines (packageManager st) (selectedVersion st)
                             ++ zipCommand (zipName st) (pyShortVersion st)
                             :: [] :: cleanupLines).
Proof.
  rewrite code_shape.
  unfold scriptSetup, scriptInstall, setupLines, installLines, cleanupLines,
    heredocOpen, heredocClose, zipCommand, cleanupCommands, unlines.
  destruct (Js.eqb (packageManager st) js"pyenv");
    repeat (rewrite <- ?app_assoc;
            cbn [Js.lit list_ascii_of_string List.map List.concat app]);
    reflexivity.
Qed.

Lemma code_lines st :
  noLF (selectedVersion st) = true ->
  noLF (zipName st) = true ->
  Js.lines (code st)
  = setupLines (packageManager st) (selectedVersion st)
      ++ Js.lines (requirementsContent st)
      ++ installLines (packageManager st) (selectedVersion st)
      ++ zipCommand (zipName st) (pyShortVersion st)
      :: [] :: cleanupLines ++ [[]].
Proof.
  intros Hv Hz. pose proof (noLF_pyShortVersion st Hv) as Hs.
  rewrite code_unlines.
  rewrite lines_unlines_app.
  2:{ unfold setupLines. destruct (Js.eqb _ _);
      repeat constructor; rewrite ?noLF_app, ?Hv; reflexivity. }
  rewrite lines_app_LF.
  rewrite <- (app_nil_r (unlines _)), lines_unlines_app.
  2:{ apply Forall_app. split.
      - unfold installLines. destruct (Js.eqb _ _);
          repeat constructor; rewrite ?noLF_app, ?Hv; reflexivity.
      - unfold zipCommand, cleanupLines.
        repeat constructor; rewrite ?noLF_app, ?Hz, ?Hs; reflexivity. }
  rewrite <- !app_assoc. reflexivity.
Qed.

Lemma generateCode_code st : generatedCode (generateCode st) = code st.
Proof. reflexivity. Qed.

(** The text depends on the two variables and the two form fields only. *)
Lemma code_ext st1 st2 :
  selectedVersion st1 = selectedVersion st2 ->
  packageManager st1 = packageManager st2 ->
  librariesValue st1 = librariesValue st2 ->
  zipNameValue st1 = zipNameValue st2 ->
  code st1 = code st2.
Proof.
  intros Hv Hp Hl Hz.
  unfold code, pyShortVersion, pyVersion, requirementsContent, libraries,
    zipName.
  rewrite Hv, Hp, Hl, Hz. reflexivity.
Qed.

(** The manifest section, line by line: the heredoc opener, the lines of the
    requirements text, the terminator.  What surrounds it does not depend
    on the dependency field. *)
Lemma code_manifest_lines st :
  exists before after, forall text,
    Js.lines (code (setLibrariesValue text st))
    = before ++ js"cat << EOF > requirements.txt"
        :: Js.lines (requirementsContent (setLibrariesValue text st))
        ++ js"EOF" :: after.
Proof.
  exists (flat_map Js.lines
            (removelast (setupLines (packageManager st) (selectedVersion st)))),
         (flat_map Js.lines
            (tl (installLines (packageManager st) (selectedVersion st))
               ++ zipCommand (zipName st) (pyShortVersion st)
               :: [] :: cleanupLines) ++ [[]]).
  intros text. rewrite code_unlines.
  change (packageManager (setLibrariesValue text st)) with (packageManager st).
  change (selectedVersion (setLibrariesValue text st)) with (selectedVersion st).
  change (zipName (setLibrariesValue text st)) with (zipName st).
  change (pyShortVersion (setLibrariesValue text st)) with (pyShortVersion st).
  rewrite lines_unlines_flat, lines_app_LF.
  rewrite <- (app_nil_r (unlines _)), lines_unlines_flat.
  unfold setupLines, installLines.
  destruct (Js.eqb (packageManager st) js"pyenv");
    cbn [removelast tl flat_map app]; rewrite <- ?app_assoc;
    repeat (f_equal; []); reflexivity.
Qed.

(** ** Counting occurrences in the templates *)

(** One piece of a template at a time: a seam that cannot be crossed splits
    the count; otherwise the piece is a literal and the occurrences that
    start in it are counted by evaluation. *)
Ltac occ_step :=
  first [ rewrite occ_app by (vm_compute; reflexivity)
        | erewrite occ_app_lit_eq by (vm_compute; reflexivity) ].

Ltac occ_closed :=
  repeat match goal with
  | |- context [Js.occ ?p ?s] =>
      tryif is_var s then fail else
      let n := eval vm_compute in (Js.occ p s) in
      change (Js.occ p s) with n
  end.

(** A supported version occurs once in the template text itself. *)
Lemma version_occ st :
  In (selectedVersion st) supportedVersions ->
  Js.occ (selectedVersion st) (code st)
  = 1 + Js.occ (selectedVersion st) (requirementsContent st)
      + Js.occ (selectedVersion st) (zipName st).
Proof.
  intros Hv. unfold code, pyShortVersion, pyVersion.
  set (R := requirementsContent st). set (Z := zipName st).
  clearbody R Z.
  destruct (Js.eqb (packageManager st) js"pyenv");
    unfold pyenvTemplate, uvTemplate;
    unfold supportedVersions in Hv; simpl In in Hv;
    repeat (destruct Hv as [<-|Hv]); try contradiction;
    repeat occ_step; occ_closed; lia.
Qed.


(** ** The archive command *)

Lemma archiveLines_code st :
  noLF (selectedVersion st) = true ->
  noLF (zipName st) = true ->
  archiveLines (code st)
  = archiveLines (requirementsContent st)
      ++ [zipCommand (zipName st) (pyShortVersion st)].
Proof.
  intros Hv Hz. unfold archiveLines. rewrite code_lines by assumption.
  rewrite !filter_app.
  assert (forall pm v, filter (Js.startsWith js"zip ") (setupLines pm v) = [])
    as -> by (intros pm v; unfold setupLines; destruct (Js.eqb _ _); reflexivity).
  assert (forall pm v, filter (Js.startsWith js"zip ") (installLines pm v) = [])
    as -> by (intros pm v; unfold installLines; destruct (Js.eqb _ _); reflexivity).
  reflexivity.
Qed.

Lemma archiveLines_manager pm st :
  noLF (selectedVersion st) = true ->
  noLF (zipName st) = true ->
  archiveLines (code (setPackageManager pm st)) = archiveLines (code st).
Proof.
  intros Hv Hz. rewrite !archiveLines_code by assumption. reflexivity.
Qed.

Lemma noLF_supported v : In v supportedVersions -> noLF v = true.
Proof.
  unfold supportedVersions. simpl In.
  intros H. repeat (destruct H as [<-|H]); try contradiction; reflexivity.
Qed.

(** * Version and archive command *)

(** C1, as the code has it: for a supported version (and a base name
    without line breaks, as a text input holds) the generated text contains
    the version once besides what the dependency text and the base name
    contain of it; its archive commands are those typed in the dependency
    text followed by exactly one of the template,
    [zip -r <base>-py<short>.zip python].  The tag [py] and so the whole
    archive command are the same under every package manager; the package
    manager is named in the download file name instead. *)
Theorem version_once_archive_once st :
  In (selectedVersion st) supportedVersions ->
  noLF (zipName st) = true ->
  Js.occ (selectedVersion st) (generatedCode (generateCode st))
  = 1 + Js.occ (selectedVersion st) (requirementsContent st)
      + Js.occ (selectedVersion st) (zipName st)
  /\ archiveLines (generatedCode (generateCode st))
     = archiveLines (requirementsContent st)
         ++ [js"zip -r " ++ zipName st ++ js"-py" ++ pyShortVersion st
               ++ js".zip python"]
  /\ (forall pm,
        archiveLines (generatedCode (generateCode (setPackageManager pm st)))
        = archiveLines (generatedCode (generateCode st)))
  /\ downloadFilename (setPackageManager js"pyenv" st)
     <> downloadFilename (setPackageManager js"uv" st).
Proof.
  intros Hv Hz. pose proof (noLF_supported _ Hv) as Hl.
  rewrite !generateCode_code. repeat split.
  - apply version_occ. exact Hv.
  - apply archiveLines_code; assumption.
  - intros pm. rewrite !generateCode_code.
    apply archiveLines_manager; assumption.
  - unfold downloadFilename. cbn [packageManager setPackageManager].
    intros E. apply app_inv_head in E. discriminate E.
Qed.

Lemma version_once_archive_once_witness :
  let st := config js"3.12" js"uv" js"numpy==2.0" js"my-layer" in
  In (selectedVersion st) supportedVersions
  /\ noLF (zipName st) = true
  /\ Js.occ js"3.12" (generatedCode (generateCode st)) = 1
  /\ archiveLines (generatedCode (generateCode st))
     = [js"zip -r my-layer-py312.zip python"].
Proof.
  intros st.
  assert (In (selectedVersion st) supportedVersions) as Hv
    by (simpl; tauto).
  assert (noLF (zipName st) = true) as Hz by reflexivity.
  destruct (version_once_archive_once st Hv Hz) as (H1 & H2 & _).
  split; [exact Hv|]. split; [exact Hz|]. split.
  - exact (eq_trans H1 eq_refl).
  - exact (eq_trans H2 eq_refl).
Defined.

(** C1, as stated, fails: with version 3.10 and blank fields both package
    managers produce the very same archive command, so no tag in its name
    tells them apart; and a version that also occurs in the dependency
    text occurs twice in the generated text. *)
Lemma archive_tag_same_for_both_managers :
  let st pm := config js"3.10" pm js"" js"" in
  archiveLines (generatedCode (generateCode (st js"pyenv")))
    = [js"zip -r lambda-layer-py310.zip python"]
  /\ archiveLines (generatedCode (generateCode (st js"uv")))
    = [js"zip -r lambda-layer-py310.zip python"]
  /\ ~ (exists tag : Js.str -> Js.str,
          tag js"pyenv" <> tag js"uv"
          /\ forall pm, In pm supportedManagers ->
               archiveLines (generatedCode (generateCode (st pm)))
               = [js"zip -r lambda-layer-" ++ tag pm ++ js"310.zip python"])
  /\ Js.occ js"3.9"
       (generatedCode
          (generateCode (config js"3.9" js"pyenv" js"matplotlib==3.9.2" js"")))
     = 2.
Proof.
  intros st.
  assert (archiveLines (generatedCode (generateCode (st js"pyenv")))
          = [js"zip -r lambda-layer-py310.zip python"]) as Hp
    by (vm_compute; reflexivity).
  assert (archiveLines (generatedCode (generateCode (st js"uv")))
          = [js"zip -r lambda-layer-py310.zip python"]) as Hu
    by (vm_compute; reflexivity).
  split; [exact Hp|]. split; [exact Hu|]. split.
  - intros (tag & Hne & H). apply Hne.
    pose proof (H js"pyenv" (or_introl eq_refl)) as H1.
    pose proof (H js"uv" (or_intror (or_introl eq_refl))) as H2.
    rewrite Hp in H1. rewrite Hu, H1 in H2.
    injection H2 as H2. apply app_inv_tail in H2. exact H2.
  - vm_compute. reflexivity.
Qed.

(** * The dependency manifest *)

Lemma requirementsContent_set text st :
  requirementsContent (setLibrariesValue text st)
  = Js.or (Js.trim text) js"requests==2.32.3".
Proof. reflexivity. Qed.

Lemma or_nonempty a b : a <> [] -> Js.or a b = a.
Proof. destruct a; [contradiction | reflexivity]. Qed.

Lemma trim_ends text :
  Js.trim text <> [] ->
  Js.is_ws (hd 0%N (Js.trim text)) = false
  /\ Js.is_ws (last (Js.trim text) 0%N) = false.
Proof.
  intros Hne. split.
  - destruct (Js.trim text) as [|c t] eqn:E; [contradiction|].
    simpl. eapply trim_head. exact E.
  - destruct (exists_last Hne) as (t & c & E).
    rewrite E, last_last. eapply trim_last. exact E.
Qed.

(** C2, as the code has it: a dependency text that is not blank is embedded
    with the white space at its two ends removed and everything between
    kept as entered; the lines of the trimmed text are, in order and
    unchanged, the lines between the heredoc opener and the terminator.
    The lines around them do not depend on the dependency text. *)
Theorem dependency_text_trimmed_then_verbatim st :
  exists before after, forall text,
    Js.trim text <> [] ->
    let st' := setLibrariesValue text st in
    (exists l r, text = l ++ Js.trim text ++ r
                 /\ allWs l = true /\ allWs r = true)
    /\ Js.is_ws (hd 0%N (Js.trim text)) = false
    /\ Js.is_ws (last (Js.trim text) 0%N) = false
    /\ requirementsContent st' = Js.trim text
    /\ Js.lines (generatedCode (generateCode st'))
       = before ++ js"cat << EOF > requirements.txt"
           :: Js.lines (Js.trim text) ++ js"EOF" :: after.
Proof.
  destruct (code_manifest_lines st) as (before & after & H).
  exists before, after. intros text Hne st'.
  assert (requirementsContent st' = Js.trim text) as HR
    by (unfold st'; rewrite requirementsContent_set; apply or_nonempty, Hne).
  split; [apply trim_split|].
  split; [apply trim_ends, Hne|].
  split; [apply trim_ends, Hne|].
  split; [exact HR|].
  rewrite generateCode_code. unfold st'. rewrite H.
  fold st'. rewrite HR. reflexivity.
Qed.

Lemma dependency_text_trimmed_then_verbatim_witness :
  let st := config js"3.10" js"uv" js"" js"my-layer" in
  let text := js"numpy==2.0
pandas==2.2" in
  Js.trim text <> []
  /\ exists before after,
       Js.lines (generatedCode (generateCode (setLibrariesValue text st)))
       = before ++ js"cat << EOF > requirements.txt"
           :: js"numpy==2.0" :: js"pandas==2.2" :: js"EOF" :: after.
Proof.
  intros st text.
  assert (Js.trim text <> []) as Hne by (vm_compute; discriminate).
  split; [exact Hne|].
  destruct (dependency_text_trimmed_then_verbatim st) as (before & after & H).
  exists before, after.
  destruct (H text Hne) as (_ & _ & _ & _ & E).
  exact (eq_trans E eq_refl).
Defined.

(** C2, as stated, fails: white space at the ends of the dependency text is
    removed.  With two leading blanks and a final line break the text as
    entered occurs nowhere in the generated script, which carries the
    trimmed text instead. *)
Lemma dependency_text_outer_whitespace_removed :
  let text := js"  numpy==2.0
" in
  let st := config js"3.10" js"uv" text js"my-layer" in
  Js.trim text <> []
  /\ requirementsContent st = js"numpy==2.0"
  /\ Js.occ text (generatedCode (generateCode st)) = 0
  /\ ~ (exists pre post,
          generatedCode (generateCode st) = pre ++ text ++ post)
  /\ generatedCode (generateCode st)
     = js"mkdir -p layer-build/ && cd layer-build/
cat << EOF > requirements.txt
numpy==2.0
EOF

uv venv --python 3.10 create_layer/
source create_layer/bin/activate
uv pip install -r requirements.txt
mkdir -p python
cp -r create_layer/lib python/
zip -r my-layer-py310.zip python

# Cleanup
deactivate
rm -rf create_layer/ python/
".
Proof.
  intros text st.
  assert (Js.occ text (generatedCode (generateCode st)) = 0) as H0
    by (vm_compute; reflexivity).
  split; [vm_compute; discriminate|].
  split; [vm_compute; reflexivity|].
  split; [exact H0|]. split.
  - intros (pre & post & E).
    assert (text <> []) as Hne by (vm_compute; discriminate).
    pose proof (occ_pos text pre post Hne) as Hpos.
    rewrite <- E, H0 in Hpos. inversion Hpos.
  - vm_compute. reflexivity.
Qed.

(** C3: an empty or blank dependency field yields the default line
    [requests==2.32.3] as the one line of the manifest, and a blank field
    yields the very text the empty field yields. *)
Theorem blank_dependencies_use_default st :
  allWs (librariesValue st) = true ->
  requirementsContent st = js"requests==2.32.3"
  /\ generatedCode (generateCode st)
     = generatedCode (generateCode (setLibrariesValue js"" st))
  /\ exists before after,
       Js.lines (generatedCode (generateCode st))
       = before ++ js"cat << EOF > requirements.txt"
           :: js"requests==2.32.3" :: js"EOF" :: after.
Proof.
  intros H.
  assert (requirementsContent st = js"requests==2.32.3") as HR
    by (unfold requirementsContent, libraries;
        rewrite trim_allWs by exact H; reflexivity).
  split; [exact HR|]. split.
  - rewrite !generateCode_code.
    unfold code, pyVersion. rewrite HR. reflexivity.
  - destruct (code_manifest_lines st) as (before & after & E).
    exists before, after. rewrite generateCode_code.
    specialize (E (librariesValue st)).
    replace (setLibrariesValue (librariesValue st) st) with st in E
      by (destruct st; reflexivity).
    rewrite E, HR. reflexivity.
Qed.

Lemma blank_dependencies_use_default_witness :
  let st := config js"3.10" js"pyenv" js"  " js"" in
  allWs (librariesValue st) = true
  /\ generatedCode (generateCode st)
     = generatedCode (generateCode (config js"3.10" js"pyenv" js"" js"")).
Proof.
  intros st.
  assert (allWs (librariesValue st) = true) as H by reflexivity.
  split; [exact H|].
  destruct (blank_dependencies_use_default st H) as (_ & E & _).
  exact E.
Defined.

(** C6: a dependency text with a line [EOF] is embedded like any other: the
    line survives the trimming and stands among the manifest lines, ahead
    of the terminator of the template; nothing is escaped or rejected. *)
Theorem heredoc_terminator_line_embedded st :
  exists before after, forall text,
    In js"EOF" (Js.lines text) ->
    let st' := setLibrariesValue text st in
    In js"EOF" (Js.lines (Js.trim text))
    /\ requirementsContent st' = Js.trim text
    /\ Js.lines (generatedCode (generateCode st'))
       = before ++ js"cat << EOF > requirements.txt"
           :: Js.lines (Js.trim text) ++ js"EOF" :: after.
Proof.
  destruct (code_manifest_lines st) as (before & after & H).
  exists before, after. intros text Hin st'.
  assert (In js"EOF" (Js.lines (Js.trim text))) as Ht
    by (apply in_lines_trim; [reflexivity | exact Hin]).
  assert (Js.trim text <> []) as Hne.
  { intros E. rewrite E in Ht. simpl in Ht.
    destruct Ht as [Ht|[]]. discriminate Ht. }
  assert (requirementsContent st' = Js.trim text) as HR
    by (unfold st'; rewrite requirementsContent_set; apply or_nonempty, Hne).
  split; [exact Ht|]. split; [exact HR|].
  rewrite generateCode_code. unfold st'. rewrite H.
  fold st'. rewrite HR. reflexivity.
Qed.

Lemma heredoc_terminator_line_embedded_witness :
  let st := config js"3.10" js"pyenv" js"" js"" in
  let text := js"numpy==2.0
EOF
pandas==2.2" in
  In js"EOF" (Js.lines text)
  /\ exists before after,
       Js.lines (generatedCode (generateCode (setLibrariesValue text st)))
       = before ++ js"cat << EOF > requirements.txt"
           :: js"numpy==2.0" :: js"EOF" :: js"pandas==2.2"
           :: js"EOF" :: after.
Proof.
  intros st text.
  assert (In js"EOF" (Js.lines text)) as Hin
    by (right; left; reflexivity).
  split; [exact Hin|].
  destruct (heredoc_terminator_line_embedded st) as (before & after & H).
  exists before, after.
  destruct (H text Hin) as (_ & _ & E).
  exact (eq_trans E eq_refl).
Defined.

(** * Base name *)

(** C4: an empty or blank base-name field yields the default base name
    [lambda-layer], and the blank field the very text of the empty one; the
    archive command then reads [zip -r lambda-layer-py<short>.zip python].
    The scenario of version 3.11 under pyenv with both fields empty gives
    the script below, with [requests==2.32.3] as manifest and the archive
    [lambda-layer-py311.zip]. *)
Theorem blank_base_name_uses_default :
  (forall st,
     allWs (zipNameValue st) = true ->
     zipName st = js"lambda-layer"
     /\ generatedCode (generateCode st)
        = generatedCode (generateCode (setZipNameValue js"" st))
     /\ exists body,
          generatedCode (generateCode st)
          = body ++ js"zip -r lambda-layer-py" ++ pyShortVersion st
              ++ js".zip python" ++ Js.LF :: Js.LF
              :: cleanupCommands ++ [Js.LF])
  /\ (forall out p u,
        let st := mkState js"3.11" js"pyenv" js"" js"" out p u in
        pyShortVersion st = js"311"
        /\ archiveLines (generatedCode (generateCode st))
           = [js"zip -r lambda-layer-py311.zip python"]
        /\ generatedCode (generateCode st)
           = js"mkdir -p layer-build/ && cd layer-build/
pyenv local 3.11
pyenv which python

cat << EOF > requirements.txt
requests==2.32.3
EOF

python -m venv create_layer
source create_layer/bin/activate
pip install -r requirements.txt
mkdir -p python
cp -r create_layer/lib python/
zip -r lambda-layer-py311.zip python

# Cleanup
deactivate
rm -rf create_layer/ python/
").
Proof.
  split.
  - intros st H.
    assert (zipName st = js"lambda-layer") as HZ
      by (unfold zipName; rewrite trim_allWs by exact H; reflexivity).
    split; [exact HZ|]. split.
    + rewrite !generateCode_code.
      unfold code, pyVersion. rewrite HZ. reflexivity.
    + rewrite generateCode_code, code_shape, HZ.
      exists (scriptSetup (packageManager st) (selectedVersion st)
                ++ heredocOpen ++ requirementsContent st ++ heredocClose
                ++ scriptInstall (packageManager st) (selectedVersion st)).
      unfold zipCommand. rewrite <- !app_assoc. reflexivity.
  - intros out p u st. repeat split; vm_compute; reflexivity.
Qed.

Lemma blank_base_name_uses_default_witness :
  let st := config js"3.13" js"uv" js"boto3" js"   " in
  allWs (zipNameValue st) = true
  /\ zipName st = js"lambda-layer"
  /\ generatedCode (generateCode st)
     = generatedCode (generateCode (config js"3.13" js"uv" js"boto3" js"")).
Proof.
  intros st.
  assert (allWs (zipNameValue st) = true) as H by reflexivity.
  split; [exact H|].
  destruct (proj1 blank_base_name_uses_default st H) as (HZ & E & _).
  split; [exact HZ | exact E].
Defined.

(** * Cleanup *)



(** * The package manager *)

Lemma reachable_manager st :
  reachable st ->
  packageManager st = js"pyenv" \/ packageManager st = js"uv".
Proof.
  induction 1 as [libs zip out p u | e st _ IH].
  - left. reflexivity.
  - destruct e; cbn [handle]; try exact IH.
    + left. reflexivity.
    + right. reflexivity.
Qed.

(** What is shown is the script of the current selections. *)
Lemma reachable_fresh st : reachable st -> generatedCode st = code st.
Proof.
  induction 1 as [libs zip out p u | e st _ IH].
  - reflexivity.
  - destruct e; cbn [handle]; try exact IH; reflexivity.
Qed.

(** C7: in every state the page can reach, [packageManager] is one of the
    two managers, and they are different values; a click on the uv button
    makes it [uv] and marks that button alone, a click on the pyenv button
    makes it [pyenv] and marks that button alone. *)
Theorem one_manager_selected st :
  reachable st ->
  (packageManager st = js"pyenv" \/ packageManager st = js"uv")
  /\ js"pyenv" <> js"uv"
  /\ packageManager (handle UvClick st) = js"uv"
  /\ uvBtnSelected (handle UvClick st) = true
  /\ pyenvBtnSelected (handle UvClick st) = false
  /\ packageManager (handle PyenvClick st) = js"pyenv"
  /\ pyenvBtnSelected (handle PyenvClick st) = true
  /\ uvBtnSelected (handle PyenvClick st) = false.
Proof.
  intros H. split; [apply reachable_manager, H|].
  split; [discriminate|].
  repeat split.
Qed.

Lemma one_manager_selected_witness :
  let st := run [UvClick; LibrariesInput js"boto3"; VersionClick js"3.12"]
                (onLoad js"" js"" js"" true false) in
  reachable st /\ packageManager st = js"uv".
Proof.
  intros st.
  assert (reachable st) as H by (repeat apply reach_event; apply reach_load).
  split; [exact H|].
  destruct (one_manager_selected st H) as ([E|E] & _).
  - discriminate E.
  - exact E.
Defined.

(** * The version buttons *)

(** C8, as the code has it: the click handler takes the version its button
    carries without any test: the version is stored, nothing else of the
    selections changes, and the script is generated again from the new
    version.  So every version string is the selection of some reachable
    state; only the buttons the page offers keep the version in the
    supported set. *)
Theorem version_click_unchecked v st :
  selectedVersion (handle (VersionClick v) st) = v
  /\ packageManager (handle (VersionClick v) st) = packageManager st
  /\ librariesValue (handle (VersionClick v) st) = librariesValue st
  /\ zipNameValue (handle (VersionClick v) st) = zipNameValue st
  /\ generatedCode (handle (VersionClick v) st)
     = code (setSelectedVersion v st)
  /\ exists st', reachable st' /\ selectedVersion st' = v.
Proof.
  repeat split.
  exists (handle (VersionClick v) (onLoad [] [] [] true false)).
  split; [apply reach_event, reach_load | reflexivity].
Qed.

(** C8, as stated, fails: a click carrying the unsupported version 2.7 is
    not refused; the selection becomes 2.7 and the script is generated
    again, now installing that version. *)
Lemma unsupported_version_is_stored :
  let st := onLoad js"" js"" js"" true false in
  let st' := handle (VersionClick js"2.7") st in
  ~ In js"2.7" supportedVersions
  /\ selectedVersion st = js"3.10"
  /\ selectedVersion st' = js"2.7"
  /\ st' <> st
  /\ generatedCode st' <> generatedCode st
  /\ Js.lines (generatedCode st')
     = [js"mkdir -p layer-build/ && cd layer-build/";
        js"pyenv local 2.7";
        js"pyenv which python";
        js"";
        js"cat << EOF > requirements.txt";
        js"requests==2.32.3";
        js"EOF";
        js"";
        js"python -m venv create_layer";
        js"source create_layer/bin/activate";
        js"pip install -r requirements.txt";
        js"mkdir -p python";
        js"cp -r create_layer/lib python/";
        js"zip -r lambda-layer-py27.zip python";
        js"";
        js"# Cleanup";
        js"deactivate";
        js"rm -rf create_layer/ python/";
        js""].
Proof.
  intros st st'. split.
  - simpl. intros H.
    repeat (destruct H as [H|H]; [discriminate H|]). exact H.
  - split; [reflexivity|]. split; [reflexivity|]. split.
    + intros E. apply (f_equal selectedVersion) in E. discriminate E.
    + split; [intros E; vm_compute in E; discriminate E|].
      vm_compute. reflexivity.
Qed.

(** * Determinism *)

(** C9: the text is a function of the version, the package manager and the
    two fields: two states that agree on them get the same text, whatever
    was shown before; and generating again changes nothing. *)
Theorem generate_deterministic st1 st2 :
  selectedVersion st1 = selectedVersion st2 ->
  packageManager st1 = packageManager st2 ->
  librariesValue st1 = librariesValue st2 ->
  zipNameValue st1 = zipNameValue st2 ->
  generatedCode (generateCode st1) = generatedCode (generateCode st2)
  /\ generateCode (generateCode st1) = generateCode st1.
Proof.
  intros Hv Hp Hl Hz. split.
  - rewrite !generateCode_code. apply code_ext; assumption.
  - reflexivity.
Qed.

Lemma generate_deterministic_witness :
  let st1 := mkState js"3.12" js"uv" js"boto3" js"aws" js"" false true in
  let st2 := mkState js"3.12" js"uv" js"boto3" js"aws" js"stale" true false in
  generatedCode (generateCode st1) = generatedCode (generateCode st2).
Proof.
  intros st1 st2.
  exact (proj1 (generate_deterministic st1 st2
                  eq_refl eq_refl eq_refl eq_refl)).
Defined.

(** * The branch on the package manager *)

(** C10: whatever [packageManager] holds other than [pyenv], one of the
    two managers or not, nothing is refused and the text is the uv script
    written out below, with [uv venv] and [uv pip]: the uv template, the
    same text as for [uv] itself, and not the text that [pyenv] gets. *)
Theorem other_manager_gets_uv_template st :
  packageManager st <> js"pyenv" ->
  generatedCode (generateCode st)
  = js"mkdir -p layer-build/ && cd layer-build/
cat << EOF > requirements.txt
" ++ requirementsContent st ++ js"
EOF

uv venv --python " ++ selectedVersion st ++ js" create_layer/
source create_layer/bin/activate
uv pip install -r requirements.txt
mkdir -p python
cp -r create_layer/lib python/
zip -r " ++ zipName st ++ js"-py" ++ pyShortVersion st ++ js".zip python

# Cleanup
deactivate
rm -rf create_layer/ python/
"
  /\ generatedCode (generateCode st)
     = uvTemplate (selectedVersion st) (requirementsContent st)
                  (zipName st) (pyShortVersion st)
  /\ generatedCode (generateCode st)
     = generatedCode (generateCode (setPackageManager js"uv" st))
  /\ generatedCode (generateCode st)
     <> generatedCode (generateCode (setPackageManager js"pyenv" st)).
Proof.
  intros H. rewrite !generateCode_code. unfold code.
  rewrite (eqb_neq _ _ H).
  split; [reflexivity|]. split; [reflexivity|]. split; [reflexivity|].
  cbn [packageManager setPackageManager].
  replace (Js.eqb js"pyenv" js"pyenv") with true by reflexivity.
  unfold uvTemplate, pyenvTemplate. intros E.
  apply (f_equal (fun s => nth 41 s 0%N)) in E.
  vm_compute in E. discriminate E.
Qed.

Lemma other_manager_gets_uv_template_witness :
  let st := config js"3.10" js"poetry" js"" js"" in
  packageManager st <> js"pyenv"
  /\ generatedCode (generateCode st)
     = js"mkdir -p layer-build/ && cd layer-build/
cat << EOF > requirements.txt
requests==2.32.3
EOF

uv venv --python 3.10 create_layer/
source create_layer/bin/activate
uv pip install -r requirements.txt
mkdir -p python
cp -r create_layer/lib python/
zip -r lambda-layer-py310.zip python

# Cleanup
deactivate
rm -rf create_layer/ python/
"
  /\ generatedCode (generateCode st)
     = generatedCode (generateCode (config js"3.10" js"uv" js"" js"")).
Proof.
  intros st.
  assert (packageManager st <> js"pyenv") as H by discriminate.
  split; [exact H|].
  destruct (other_manager_gets_uv_template st H) as (E1 & _ & E3 & _).
  split; [exact (eq_trans E1 eq_refl) | exact E3].
Defined.

(** * Further properties of the page script *)

(** ** White space around the fields *)

Lemma trimStart_app_ws l s : allWs l = true -> Js.trimStart (l ++ s) = Js.trimStart s.
Proof.
  induction l as [|c l IH]; simpl; [reflexivity|].
  intros H. apply andb_true_iff in H as [-> Hl]. auto.
Qed.

Lemma trimStart_app_keep t r :
  Js.trimStart t <> [] -> Js.trimStart (t ++ r) = Js.trimStart t ++ r.
Proof.
  induction t as [|c t IH]; simpl; [contradiction|].
  destruct (Js.is_ws c); [exact IH | reflexivity].
Qed.

Lemma trimStart_nil_allWs s : Js.trimStart s = [] -> allWs s = true.
Proof.
  intros H. destruct (trimStart_split s) as (l & E & W).
  rewrite H, app_nil_r in E. subst l. exact W.
Qed.

Lemma trimEnd_app_ws s r : allWs r = true -> Js.trimEnd (s ++ r) = Js.trimEnd s.
Proof.
  intros H. unfold Js.trimEnd.
  rewrite rev_app_distr, trimStart_app_ws by (rewrite allWs_rev; exact H).
  reflexivity.
Qed.

Lemma trim_pad l t r :
  allWs l = true -> allWs r = true -> Js.trim (l ++ t ++ r) = Js.trim t.
Proof.
  intros Hl Hr. unfold Js.trim. rewrite trimStart_app_ws by exact Hl.
  destruct (Js.trimStart t) as [|c u] eqn:E.
  - pose proof (trimStart_nil_allWs t E) as Ht.
    rewrite trimStart_allWs; [reflexivity|].
    rewrite allWs_app, Ht, Hr. reflexivity.
  - rewrite trimStart_app_keep by (rewrite E; discriminate).
    rewrite E. apply trimEnd_app_ws. exact Hr.
Qed.

(** X2: white space typed in front of or behind the content of either
    field, line breaks included, never changes the generated script. *)
Theorem outer_white_space_ignored st l r :
  allWs l = true -> allWs r = true ->
  generatedCode (handle (LibrariesInput (l ++ librariesValue st ++ r)) st)
  = code st
  /\ generatedCode (handle (ZipNameInput (l ++ zipNameValue st ++ r)) st)
     = code st.
Proof.
  intros Hl Hr. split.
  - change (code (setLibrariesValue (l ++ librariesValue st ++ r) st)
            = code st).
    unfold code, pyShortVersion, pyVersion, requirementsContent, libraries,
      zipName.
    cbn [setLibrariesValue librariesValue zipNameValue selectedVersion
         packageManager].
    rewrite trim_pad by assumption. reflexivity.
  - change (code (setZipNameValue (l ++ zipNameValue st ++ r) st) = code st).
    unfold code, pyShortVersion, pyVersion, requirementsContent, libraries,
      zipName.
    cbn [setZipNameValue librariesValue zipNameValue selectedVersion
         packageManager].
    rewrite trim_pad by assumption. reflexivity.
Qed.

Lemma outer_white_space_ignored_witness :
  let st := config js"3.12" js"uv" js"boto3" js"aws" in
  generatedCode (handle (LibrariesInput js"
  boto3
") st)
  = code st.
Proof.
  intros st.
  exact (proj1 (outer_white_space_ignored st (Js.LF :: js"  ") [Js.LF]
                  eq_refl eq_refl)).
Defined.

(** X3: the requirements text and the base name that go into the script
    are never empty and never begin or end with white space: the heredoc
    always has content and the archive name never starts with [-py]. *)
Theorem manifest_and_base_name_never_blank st :
  (requirementsContent st <> []
   /\ Js.is_ws (hd 0%N (requirementsContent st)) = false
   /\ Js.is_ws (last (requirementsContent st) 0%N) = false)
  /\ (zipName st <> []
      /\ Js.is_ws (hd 0%N (zipName st)) = false
      /\ Js.is_ws (last (zipName st) 0%N) = false).
Proof.
  unfold requirementsContent, libraries, zipName. split.
  - destruct (Js.trim (librariesValue st)) as [|c t] eqn:E.
    + cbn [Js.or]. split; [discriminate | split; reflexivity].
    + cbn [Js.or]. rewrite <- E.
      assert (Js.trim (librariesValue st) <> []) as Hne
        by (rewrite E; discriminate).
      split; [exact Hne | apply trim_ends, Hne].
  - destruct (Js.trim (zipNameValue st)) as [|c t] eqn:E.
    + cbn [Js.or]. split; [discriminate | split; reflexivity].
    + cbn [Js.or]. rewrite <- E.
      assert (Js.trim (zipNameValue st) <> []) as Hne
        by (rewrite E; discriminate).
      split; [exact Hne | apply trim_ends, Hne].
Qed.

(** ** The base name field *)

(** X4: the base name reaches the script in one place only.  For a version
    without line breaks, the lines before and after the archive command do
    not depend on the base-name field, and the archive command is the one
    line that carries the name. *)
Theorem base_name_only_in_archive_command st :
  noLF (selectedVersion st) = true ->
  exists before after, forall name,
    let st' := setZipNameValue name st in
    noLF (zipName st') = true ->
    Js.lines (generatedCode (generateCode st'))
    = before
        ++ (js"zip -r " ++ zipName st' ++ js"-py" ++ pyShortVersion st
              ++ js".zip python")
        :: after.
Proof.
  intros Hv.
  exists (setupLines (packageManager st) (selectedVersion st)
            ++ Js.lines (requirementsContent st)
            ++ installLines (packageManager st) (selectedVersion st)),
         ([] :: cleanupLines ++ [[]]).
  intros name st' Hz.
  rewrite generateCode_code, code_lines by assumption.
  rewrite <- !app_assoc. reflexivity.
Qed.

Lemma base_name_only_in_archive_command_witness :
  let st := config js"3.11" js"uv" js"boto3" js"" in
  exists before after,
    Js.lines (generatedCode (generateCode (setZipNameValue js"aws" st)))
    = before ++ js"zip -r aws-py311.zip python" :: after
    /\ Js.lines (generatedCode (generateCode (setZipNameValue js"" st)))
       = before ++ js"zip -r lambda-layer-py311.zip python" :: after.
Proof.
  intros st.
  destruct (base_name_only_in_archive_command st eq_refl)
    as (before & after & H).
  exists before, after. split.
  - exact (eq_trans (H js"aws" eq_refl) eq_refl).
  - exact (eq_trans (H js"" eq_refl) eq_refl).
Defined.

(** ** The short version *)

Lemma replace_char_absent c rep s : ~ In c s -> Js.replace [c] rep s = s.
Proof.
  induction s as [|d s IH]; intros H.
  - reflexivity.
  - cbn [Js.replace Js.startsWith].
    destruct (c =? d)%N eqn:E.
    + apply N.eqb_eq in E. exfalso. apply H. left. auto.
    + cbn [andb]. rewrite IH; [reflexivity|].
      intros Hin. apply H. right. exact Hin.
Qed.

Lemma replace_char_first c rep a b :
  ~ In c a -> Js.replace [c] rep (a ++ c :: b) = a ++ rep ++ b.
Proof.
  induction a as [|d a IH]; intros H.
  - cbn [app Js.replace Js.startsWith]. rewrite N.eqb_refl. reflexivity.
  - cbn [app Js.replace Js.startsWith].
    destruct (c =? d)%N eqn:E.
    + apply N.eqb_eq in E. exfalso. apply H. left. auto.
    + cbn [andb]. rewrite IH; [reflexivity|].
      intros Hin. apply H. right. exact Hin.
Qed.

(** X5: the short version drops the first dot of the version and nothing
    else: a version without a dot is used as it is, and from one with
    several dots only the first goes, so the later ones stay in the archive
    name and in the download name. *)
Theorem short_version_drops_first_dot_only st :
  (~ In 46%N (selectedVersion st) -> pyShortVersion st = selectedVersion st)
  /\ (forall a b,
        selectedVersion st = a ++ js"." ++ b -> ~ In 46%N a ->
        pyShortVersion st = a ++ b
        /\ downloadFilename st
           = js"lambda-layer-" ++ packageManager st ++ js"-py" ++ a ++ b
               ++ js".sh").
Proof.
  split.
  - intros H. apply replace_char_absent. exact H.
  - intros a b E H.
    assert (Js.replace js"." js"" (selectedVersion st) = a ++ b) as R
      by (rewrite E; apply (replace_char_first 46%N [] a b H)).
    unfold downloadFilename, pyShortVersion, pyVersion. rewrite R.
    rewrite <- !app_assoc. auto.
Qed.

Lemma short_version_drops_first_dot_only_witness :
  pyShortVersion (config js"3.10.2" js"uv" js"" js"") = js"310.2"
  /\ pyShortVersion (config js"311" js"uv" js"" js"") = js"311".
Proof.
  split.
  - refine (proj1 (proj2 (short_version_drops_first_dot_only
                            (config js"3.10.2" js"uv" js"" js""))
                         js"3" js"10.2" eq_refl _)).
    simpl. intros [H|[]]. discriminate H.
  - refine (proj1 (short_version_drops_first_dot_only
                     (config js"311" js"uv" js"" js"")) _).
    simpl. intros [H|[H|[H|[]]]]; discriminate H.
Defined.

(** ** The download name *)

(** X6: over the supported versions and the two package managers the
    download name tells every selection from every other. *)
Theorem download_names_distinct st1 st2 :
  In (selectedVersion st1) supportedVersions ->
  In (selectedVersion st2) supportedVersions ->
  In (packageManager st1) supportedManagers ->
  In (packageManager st2) supportedManagers ->
  downloadFilename st1 = downloadFilename st2 ->
  packageManager st1 = packageManager st2
  /\ selectedVersion st1 = selectedVersion st2.
Proof.
  unfold downloadFilename, supportedVersions, supportedManagers.
  simpl In. intros V1 V2 P1 P2.
  repeat (destruct V1 as [<-|V1]); try contradiction;
  repeat (destruct V2 as [<-|V2]); try contradiction;
  repeat (destruct P1 as [<-|P1]); try contradiction;
  repeat (destruct P2 as [<-|P2]); try contradiction;
  intros E;
  first [ split; reflexivity | vm_compute in E; discriminate E ].
Qed.

Lemma download_names_distinct_witness :
  let st1 := config js"3.12" js"uv" js"boto3" js"aws" in
  let st2 := config js"3.12" js"uv" js"" js"" in
  downloadFilename st1 = js"lambda-layer-uv-py312.sh"
  /\ packageManager st1 = packageManager st2
  /\ selectedVersion st1 = selectedVersion st2.
Proof.
  intros st1 st2. split; [reflexivity|].
  apply (download_names_distinct st1 st2); simpl; tauto.
Defined.

(** ** Generating after every event *)

Lemma generateCode_setCode c st : generateCode (setCode c st) = generateCode st.
Proof. reflexivity. Qed.

Lemma generateCode_fresh st : generatedCode st = code st -> generateCode st = st.
Proof.
  intros H. unfold generateCode, setCode. rewrite <- H.
  destruct st; reflexivity.
Qed.

Lemma assign_setCode e c st : assign e (setCode c st) = setCode c (assign e st).
Proof. destruct e; reflexivity. Qed.

Lemma handle_assign e st : setCode [] (handle e st) = setCode [] (assign e st).
Proof. destruct e; reflexivity. Qed.

Lemma handle_fresh e st :
  generatedCode st = code st -> generatedCode (handle e st) = code (handle e st).
Proof. destruct e; intros H; try reflexivity; exact H. Qed.

Lemma run_assign es :
  forall st st',
    setCode [] st = setCode [] st' ->
    generatedCode st = code st ->
    run es st = generateCode (fold_left (fun s e => assign e s) es st').
Proof.
  induction es as [|e es IH]; intros st st' E F.
  - cbn [run fold_left].
    rewrite <- (generateCode_setCode [] st'), <- E, generateCode_setCode.
    symmetry. apply generateCode_fresh. exact F.
  - cbn [run fold_left]. apply IH.
    + rewrite handle_assign, <- !assign_setCode, E. reflexivity.
    + apply handle_fresh. exact F.
Qed.

(** X7: generating after every click and keystroke gives what generating
    once at the end would give: after any run of events from a reachable
    state, the page is in the state that the assignments alone lead to,
    followed by a single [generateCode()].  No listener depends on the text
    generated before it. *)
Theorem generating_once_at_the_end_suffices st es :
  reachable st ->
  run es st = generateCode (fold_left (fun s e => assign e s) es st).
Proof.
  intros H. apply run_assign; [reflexivity | apply reachable_fresh, H].
Qed.

Lemma generating_once_at_the_end_suffices_witness :
  let st := onLoad js"" js"" js"" true false in
  run [LibrariesInput js"b"; LibrariesInput js"bo"; UvClick;
       LibrariesInput js"boto3"; VersionClick js"3.13"] st
  = generateCode (mkState js"3.13" js"uv" js"boto3" js"" js"" false true).
Proof.
  intros st.
  exact (eq_trans
           (generating_once_at_the_end_suffices st
              [LibrariesInput js"b"; LibrariesInput js"bo"; UvClick;
               LibrariesInput js"boto3"; VersionClick js"3.13"]
              (reach_load js"" js"" js"" true false))
           eq_refl).
Defined.

(** ** The version buttons *)

Lemma filter_removeSelected btns :
  filter btnSelected (List.map classRemoveSelected btns) = [].
Proof. induction btns as [|b btns IH]; [reflexivity | exact IH]. Qed.

Lemma filter_updateAt_selected btns :
  forall i btn,
    nth_error btns i = Some btn ->
    filter btnSelected
      (updateAt i classAddSelected (List.map classRemoveSelected btns))
    = [classAddSelected btn].
Proof.
  induction btns as [|b btns IH]; intros [|i] btn H; try discriminate H.
  - injection H as ->. cbn [List.map updateAt filter classAddSelected btnSelected
                            classRemoveSelected datasetVersion].
    rewrite filter_removeSelected. reflexivity.
  - cbn [List.map updateAt filter classRemoveSelected btnSelected].
    apply IH. exact H.
Qed.

Lemma map_version_updateAt btns :
  forall i,
    List.map datasetVersion
      (updateAt i classAddSelected (List.map classRemoveSelected btns))
    = List.map datasetVersion btns.
Proof.
  induction btns as [|b btns IH]; intros [|i]; cbn [List.map updateAt].
  - reflexivity.
  - reflexivity.
  - rewrite List.map_map. reflexivity.
  - rewrite IH. reflexivity.
Qed.

(** X8: after a click on a version button, whatever the classes were
    before, exactly one version button carries [selected], the clicked one;
    its version is the selected version; no button changes its version;
    and the script shown is that of the new selection. *)
Theorem version_click_marks_one_button i btns st btn :
  nth_error btns i = Some btn ->
  let page' := versionBtnClick i (btns, st) in
  filter btnSelected (fst page') = [mkVersionBtn (datasetVersion btn) true]
  /\ List.map datasetVersion (filter btnSelected (fst page'))
     = [selectedVersion (snd page')]
  /\ List.map datasetVersion (fst page') = List.map datasetVersion btns
  /\ snd page' = handle (VersionClick (datasetVersion btn)) st.
Proof.
  intros H page'. unfold page', versionBtnClick. cbn [fst snd]. rewrite H.
  cbn [fst snd]. rewrite (filter_updateAt_selected btns i btn H).
  repeat split. apply map_version_updateAt.
Qed.

Lemma version_click_marks_one_button_witness :
  let btns := [mkVersionBtn js"3.9" true; mkVersionBtn js"3.10" true;
               mkVersionBtn js"3.11" false] in
  let page' := versionBtnClick 2 (btns, onLoad js"" js"" js"" true false) in
  filter btnSelected (fst page') = [mkVersionBtn js"3.11" true]
  /\ selectedVersion (snd page') = js"3.11".
Proof.
  intros btns page'.
  destruct (version_click_marks_one_button 2 btns
              (onLoad js"" js"" js"" true false)
              (mkVersionBtn js"3.11" false) eq_refl) as (H1 & _ & _ & H4).
  split; [exact H1|]. fold page' in H4. rewrite H4. reflexivity.
Defined.

(** ** The copy button *)

Lemma copy_cycle b :
  copyPending b = [] ->
  copyRun [Fulfilled; TimeoutFired] b = b.
Proof. destruct b as [l p]. simpl. intros ->. reflexivity. Qed.

(** X9: copies that do not overlap leave the button as it was: when each
    timeout runs before the next write to the clipboard resolves, the label
    is back after every round and no timeout stays pending; a rejected
    write changes nothing. *)
Theorem copy_label_restored_between_copies n label :
  copyRun (List.concat (repeat [Fulfilled; TimeoutFired] n))
          (mkCopyBtn label [])
  = mkCopyBtn label []
  /\ copyInnerHTML (copyRun [Fulfilled] (mkCopyBtn label [])) = copiedLabel
  /\ copyRun [Rejected] (mkCopyBtn label []) = mkCopyBtn label [].
Proof.
  split; [|split; reflexivity].
  induction n as [|n IH]; [reflexivity|].
  cbn [repeat List.concat app copyRun fold_left] in *.
  exact IH.
Qed.

Lemma copy_stuck_step e b :
  copyInnerHTML b = copiedLabel ->
  Forall (fun t => t = copiedLabel) (copyPending b) ->
  copyInnerHTML (copyStep e b) = copiedLabel
  /\ Forall (fun t => t = copiedLabel) (copyPending (copyStep e b)).
Proof.
  intros L P. destruct e; cbn [copyStep].
  - split; [reflexivity|]. cbn [copyFulfilled copyPending].
    apply Forall_app. split; [exact P|]. constructor; [exact L | constructor].
  - split; assumption.
  - unfold copyTimeout. destruct (copyPending b) as [|t ts] eqn:E.
    + split; [exact L | rewrite E; constructor].
    + inversion P; subst. split; [reflexivity | assumption].
Qed.

Lemma copy_stuck_run es :
  forall b,
    copyInnerHTML b = copiedLabel ->
    Forall (fun t => t = copiedLabel) (copyPending b) ->
    copyInnerHTML (copyRun es b) = copiedLabel.
Proof.
  induction es as [|e es IH]; intros b L P; [exact L|].
  cbn [copyRun fold_left].
  destruct (copy_stuck_step e b L P) as [L' P'].
  apply IH; assumption.
Qed.

(** X10: two copies that overlap lose the label for good.  When the second
    write resolves before the timeout of the first has run, the second
    callback saves the copied notice as the original text; once both
    timeouts have run the button shows the notice, and so it does after
    every later event. *)
Theorem copy_label_lost_when_copies_overlap label es :
  copyRun [Fulfilled; Fulfilled; TimeoutFired; TimeoutFired]
          (mkCopyBtn label [])
  = mkCopyBtn copiedLabel []
  /\ copyInnerHTML
       (copyRun (Fulfilled :: Fulfilled :: TimeoutFired :: TimeoutFired :: es)
                (mkCopyBtn label []))
     = copiedLabel.
Proof.
  split; [reflexivity|].
  change (copyRun (Fulfilled :: Fulfilled :: TimeoutFired :: TimeoutFired :: es)
                  (mkCopyBtn label []))
    with (copyRun es (mkCopyBtn copiedLabel [])).
  apply copy_stuck_run; [reflexivity | constructor].
Qed.

(** ** The download link *)

Lemma forallb_mono (f g : N -> bool) s :
  (forall c, f c = true -> g c = true) ->
  forallb f s = true -> forallb g s = true.
Proof.
  intros M. induction s as [|c s IH]; simpl; [reflexivity|].
  intros H. apply andb_true_iff in H as [Hc Hs].
  rewrite (M c Hc), IH by exact Hs. reflexivity.
Qed.

Lemma forallb_trim (f : N -> bool) s :
  forallb f s = true -> forallb f (Js.trim s) = true.
Proof.
  intros H. destruct (trim_split s) as (l & r & E & _).
  rewrite E, !forallb_app in H.
  apply andb_true_iff in H as [_ H]. apply andb_true_iff in H as [H _].
  exact H.
Qed.

Lemma forallb_or (f : N -> bool) a b :
  forallb f a = true -> forallb f b = true -> forallb f (Js.or a b) = true.
Proof. destruct a; auto. Qed.

(** The script holds the code units of the inputs and ASCII besides. *)
Lemma forallb_code (f : N -> bool) st :
  (forall c, (c <? 128)%N = true -> f c = true) ->
  forallb f (selectedVersion st) = true ->
  forallb f (librariesValue st) = true ->
  forallb f (zipNameValue st) = true ->
  forallb f (code st) = true.
Proof.
  intros A Hv Hl Hz.
  assert (forall s, isAscii s = true -> forallb f s = true) as L
    by (intros s; apply forallb_mono; exact A).
  assert (forallb f (requirementsContent st) = true) as HR
    by (apply forallb_or; [apply forallb_trim, Hl | apply L; reflexivity]).
  assert (forallb f (zipName st) = true) as HZ
    by (apply forallb_or; [apply forallb_trim, Hz | apply L; reflexivity]).
  assert (forallb f (pyShortVersion st) = true) as HS
    by (apply forallb_replace_empty; exact Hv).
  unfold code, pyVersion, pyenvTemplate, uvTemplate.
  destruct (Js.eqb (packageManager st) js"pyenv");
    rewrite !forallb_app, Hv, HR, HZ, HS;
    rewrite !L by reflexivity; reflexivity.
Qed.

Lemma hexDigit_unreserved n : (n < 16)%N -> isUnreserved (hexDigit n) = true.
Proof.
  intros H.
  assert (In n [0;1;2;3;4;5;6;7;8;9;10;11;12;13;14;15]%N) as Hin.
  { destruct n as [|p]; [left; reflexivity|].
    do 16 (destruct p as [p|p|]; try lia; simpl; auto 20). }
  simpl in Hin.
  repeat (destruct Hin as [<-|Hin]; [reflexivity|]). contradiction.
Qed.

Lemma hexValue_hexDigit n : (n < 16)%N -> hexValue (hexDigit n) = Some n.
Proof.
  intros H.
  assert (In n [0;1;2;3;4;5;6;7;8;9;10;11;12;13;14;15]%N) as Hin.
  { destruct n as [|p]; [left; reflexivity|].
    do 16 (destruct p as [p|p|]; try lia; simpl; auto 20). }
  simpl in Hin.
  repeat (destruct Hin as [<-|Hin]; [reflexivity|]). contradiction.
Qed.

Lemma pctOctet_safe b : (b < 256)%N -> forallb uriSafe (pctOctet b) = true.
Proof.
  intros H. unfold pctOctet, uriSafe. cbn [forallb].
  rewrite !hexDigit_unreserved.
  - reflexivity.
  - apply N.mod_lt. discriminate.
  - apply N.Div0.div_lt_upper_bound. exact H.
Qed.

Lemma utf8_octets cp :
  (cp < 1114112)%N -> Forall (fun b => (b < 256)%N) (utf8 cp).
Proof.
  intros H. unfold utf8.
  destruct (cp <? 128)%N eqn:E1; [apply N.ltb_lt in E1|apply N.ltb_ge in E1].
  { repeat constructor. lia. }
  destruct (cp <? 2048)%N eqn:E2; [apply N.ltb_lt in E2|apply N.ltb_ge in E2].
  { assert (cp / 64 < 32)%N by (apply N.Div0.div_lt_upper_bound; lia).
    assert (cp mod 64 < 64)%N by (apply N.mod_lt; discriminate).
    repeat constructor; lia. }
  destruct (cp <? 65536)%N eqn:E3; [apply N.ltb_lt in E3|apply N.ltb_ge in E3].
  { assert (cp / 4096 < 16)%N by (apply N.Div0.div_lt_upper_bound; lia).
    assert ((cp / 64) mod 64 < 64)%N by (apply N.mod_lt; discriminate).
    assert (cp mod 64 < 64)%N by (apply N.mod_lt; discriminate).
    repeat constructor; lia. }
  assert (cp / 262144 < 8)%N by (apply N.Div0.div_lt_upper_bound; lia).
  assert ((cp / 4096) mod 64 < 64)%N by (apply N.mod_lt; discriminate).
  assert ((cp / 64) mod 64 < 64)%N by (apply N.mod_lt; discriminate).
  assert (cp mod 64 < 64)%N by (apply N.mod_lt; discriminate).
  repeat constructor; lia.
Qed.

Lemma pctEncode_safe cp :
  (cp < 1114112)%N -> forallb uriSafe (pctEncode cp) = true.
Proof.
  intros H. unfold pctEncode.
  induction (utf8_octets cp H) as [|b bs Hb _ IH]; [reflexivity|].
  cbn [flat_map]. rewrite forallb_app, pctOctet_safe, IH by exact Hb.
  reflexivity.
Qed.

Lemma pairCodePoint_bound c d :
  isLeadSurrogate c = true -> isTrailSurrogate d = true ->
  (pairCodePoint c d < 1114112)%N.
Proof.
  unfold isLeadSurrogate, isTrailSurrogate, pairCodePoint.
  rewrite !andb_true_iff, !N.leb_le. lia.
Qed.

Lemma encodeURIComponent_safe n :
  forall s r,
    List.length s <= n ->
    codeUnits s = true ->
    encodeURIComponent s = Some r ->
    forallb uriSafe r = true.
Proof.
  induction n as [|n IH]; intros s r Hn U E.
  - destruct s; [|simpl in Hn; lia]. injection E as <-. reflexivity.
  - destruct s as [|c s]; [injection E as <-; reflexivity|].
    cbn [codeUnits forallb] in U. apply andb_true_iff in U as [Uc Us].
    cbn [List.length] in Hn. cbn [encodeURIComponent] in E.
    destruct (isUnreserved c) eqn:Ec.
    + destruct (encodeURIComponent s) as [r'|] eqn:Er; [|discriminate E].
      injection E as <-. cbn [forallb]. unfold uriSafe at 1. rewrite Ec.
      apply (IH s r'); [lia | exact Us | exact Er].
    + destruct (isTrailSurrogate c); [discriminate E|].
      destruct (isLeadSurrogate c) eqn:El.
      * destruct s as [|d s]; [discriminate E|].
        destruct (isTrailSurrogate d) eqn:Et; [|discriminate E].
        cbn [forallb] in Us. apply andb_true_iff in Us as [_ Us].
        cbn [List.length] in Hn.
        destruct (encodeURIComponent s) as [r'|] eqn:Er; [|discriminate E].
        injection E as <-. rewrite forallb_app.
        rewrite pctEncode_safe by (apply pairCodePoint_bound; assumption).
        apply (IH s r'); [lia | exact Us | exact Er].
      * destruct (encodeURIComponent s) as [r'|] eqn:Er; [|discriminate E].
        injection E as <-. rewrite forallb_app.
        rewrite pctEncode_safe by (apply N.ltb_lt in Uc; lia).
        apply (IH s r'); [lia | exact Us | exact Er].
Qed.

Lemma uriSafe_in c r : forallb uriSafe r = true -> uriSafe c = false -> ~ In c r.
Proof.
  intros H F Hin. rewrite forallb_forall in H.
  rewrite (H c Hin) in F. discriminate F.
Qed.

(** X11: the text is escaped before it goes into the link: what follows the
    [data:] prefix holds only letters, digits, [- _ . ! ~ * ' ( )] and
    percent signs.  So the link holds no [#], which would cut the script
    off at its [# Cleanup] line, and no line break or blank. *)
Theorem download_link_is_escaped st href :
  codeUnits (generatedCode st) = true ->
  downloadHref st = Some href ->
  (exists payload,
     href = js"data:text/plain;charset=utf-8," ++ payload
     /\ encodeURIComponent (generatedCode st) = Some payload
     /\ forallb uriSafe payload = true)
  /\ ~ In 35%N href /\ ~ In 10%N href /\ ~ In 32%N href.
Proof.
  intros U E. unfold downloadHref in E.
  destruct (encodeURIComponent (generatedCode st)) as [payload|] eqn:Ep;
    [|discriminate E].
  assert (href = js"data:text/plain;charset=utf-8," ++ payload) as ->
    by (cbn [option_map] in E; congruence).
  pose proof (encodeURIComponent_safe _ _ _ (le_n _) U Ep) as S.
  split; [exists payload; auto|].
  repeat split; intros Hin; apply in_app_or in Hin as [Hin|Hin];
    try (revert Hin; apply uriSafe_in; [exact S | reflexivity]);
    vm_compute in Hin;
    repeat (destruct Hin as [Hin|Hin]; [discriminate Hin|]);
    exact Hin.
Qed.

Lemma download_link_is_escaped_witness :
  let st := generateCode (config js"3.10" js"uv" js"" js"") in
  exists href,
    downloadHref st = Some href /\ ~ In 35%N href.
Proof.
  intros st. destruct (downloadHref st) as [href|] eqn:E.
  - exists href. split; [reflexivity|].
    apply (download_link_is_escaped st href eq_refl E).
  - vm_compute in E. discriminate E.
Defined.

Lemma encodeURIComponent_noSurrogates s :
  noSurrogates s = true -> exists r, encodeURIComponent s = Some r.
Proof.
  induction s as [|c s IH]; intros H; [exists []; reflexivity|].
  cbn [noSurrogates forallb] in H. apply andb_true_iff in H as [Hc Hs].
  destruct (IH Hs) as [r Er]. cbn [encodeURIComponent]. rewrite Er.
  unfold isSurrogate in Hc. apply negb_true_iff, orb_false_iff in Hc as [-> ->].
  destruct (isUnreserved c); cbn [option_map]; eauto.
Qed.

(** X12: the download never fails on text that holds no surrogate code
    units: when the version and the two fields are free of them, so is the
    script, [encodeURIComponent] does not throw, and the link is set. *)
Theorem download_succeeds_without_surrogates st :
  noSurrogates (selectedVersion st) = true ->
  noSurrogates (librariesValue st) = true ->
  noSurrogates (zipNameValue st) = true ->
  noSurrogates (generatedCode (generateCode st)) = true
  /\ exists href, downloadHref (generateCode st) = Some href.
Proof.
  intros Hv Hl Hz.
  assert (noSurrogates (generatedCode (generateCode st)) = true) as H.
  { rewrite generateCode_code. apply forallb_code; try assumption.
    intros c Hc. apply N.ltb_lt in Hc.
    unfold isSurrogate, isLeadSurrogate, isTrailSurrogate.
    apply negb_true_iff, orb_false_iff.
    split; apply andb_false_iff; left; apply N.leb_gt; lia. }
  split; [exact H|].
  destruct (encodeURIComponent_noSurrogates _ H) as [r Er].
  unfold downloadHref. rewrite Er. cbn [option_map]. eauto.
Qed.

Lemma download_succeeds_without_surrogates_witness :
  let st := config js"3.10" js"uv" [233; 8364]%N js"aws" in
  exists href, downloadHref (generateCode st) = Some href.
Proof.
  intros st.
  exact (proj2 (download_succeeds_without_surrogates st
                  eq_refl eq_refl eq_refl)).
Defined.

Lemma pctDecode_cons c s :
  (c =? 37)%N = false -> pctDecode (c :: s) = c :: pctDecode s.
Proof.
  intros H. cbn [pctDecode]. rewrite H.
  destruct s as [|h [|l s]]; reflexivity.
Qed.

Lemma pctDecode_pctOctet b s :
  (b < 256)%N -> pctDecode (pctOctet b ++ s) = b :: pctDecode s.
Proof.
  intros H. unfold pctOctet. cbn [app pctDecode]. rewrite N.eqb_refl.
  rewrite !hexValue_hexDigit.
  - f_equal. symmetry. apply N.div_mod. discriminate.
  - apply N.mod_lt. discriminate.
  - apply N.Div0.div_lt_upper_bound. exact H.
Qed.

Lemma encodeURIComponent_ascii s :
  isAscii s = true ->
  exists r, encodeURIComponent s = Some r /\ pctDecode r = s.
Proof.
  induction s as [|c s IH]; intros H; [exists []; split; reflexivity|].
  cbn [isAscii forallb] in H. apply andb_true_iff in H as [Hc Hs].
  destruct (IH Hs) as (r & Er & Dr).
  cbn [encodeURIComponent]. rewrite Er. cbn [option_map].
  pose proof Hc as Hlt. apply N.ltb_lt in Hlt.
  destruct (isUnreserved c) eqn:Eu.
  - exists (c :: r). split; [reflexivity|].
    rewrite pctDecode_cons, Dr; [reflexivity|].
    destruct (c =? 37)%N eqn:E37; [|reflexivity].
    apply N.eqb_eq in E37. subst c. discriminate Eu.
  - assert (isTrailSurrogate c = false) as ->
      by (unfold isTrailSurrogate; apply andb_false_iff; left;
          apply N.leb_gt; lia).
    assert (isLeadSurrogate c = false) as ->
      by (unfold isLeadSurrogate; apply andb_false_iff; left;
          apply N.leb_gt; lia).
    exists (pctEncode c ++ r). split; [reflexivity|].
    unfold pctEncode, utf8. rewrite Hc. cbn [flat_map].
    rewrite app_nil_r, pctDecode_pctOctet, Dr by lia. reflexivity.
Qed.

(** X13: the link loses nothing of an ASCII text.  Whatever ASCII text the
    handler reads from the output element, the link is set, undoing the
    percent escapes of what follows the [data:] prefix gives back that
    text, code unit for octet, and two such texts with the same link are
    the same text. *)
Theorem download_round_trip_ascii st :
  isAscii (generatedCode st) = true ->
  (exists payload,
     downloadHref st = Some (js"data:text/plain;charset=utf-8," ++ payload)
     /\ pctDecode payload = generatedCode st)
  /\ (forall st',
        isAscii (generatedCode st') = true ->
        downloadHref st' = downloadHref st ->
        generatedCode st' = generatedCode st).
Proof.
  intros H.
  destruct (encodeURIComponent_ascii _ H) as (r & Er & Dr).
  split.
  - exists r. split; [|exact Dr].
    unfold downloadHref. rewrite Er. reflexivity.
  - intros st' H' E.
    destruct (encodeURIComponent_ascii _ H') as (r' & Er' & Dr').
    unfold downloadHref in E. rewrite Er, Er' in E. cbn [option_map] in E.
    assert (r' = r) as Heq
      by (apply (app_inv_head js"data:text/plain;charset=utf-8,"); congruence).
    rewrite <- Dr, <- Dr', Heq. reflexivity.
Qed.

Lemma download_round_trip_ascii_witness :
  let st := mkState js"3.12" js"pyenv" js"" js"" js"pip install boto3 # aws"
                    false false in
  isAscii (generatedCode st) = true
  /\ exists payload,
       downloadHref st = Some (js"data:text/plain;charset=utf-8," ++ payload)
       /\ pctDecode payload = js"pip install boto3 # aws".
Proof.
  intros st.
  assert (isAscii (generatedCode st) = true) as H by reflexivity.
  split; [exact H|].
  exact (proj1 (download_round_trip_ascii st H)).
Defined.

Lemma unreserved_ascii c : isUnreserved c = true -> (c <? 128)%N = true.
Proof.
  intros H. destruct (c <? 128)%N eqn:E; [reflexivity|].
  apply N.ltb_ge in E. exfalso. revert H. unfold isUnreserved.
  assert ((c <=? 90) = false)%N as -> by (apply N.leb_gt; lia).
  assert ((c <=? 122) = false)%N as -> by (apply N.leb_gt; lia).
  assert ((c <=? 57) = false)%N as -> by (apply N.leb_gt; lia).
  assert ((c =? 45) = false)%N as -> by (apply N.eqb_neq; lia).
  assert ((c =? 95) = false)%N as -> by (apply N.eqb_neq; lia).
  assert ((c =? 46) = false)%N as -> by (apply N.eqb_neq; lia).
  assert ((c =? 33) = false)%N as -> by (apply N.eqb_neq; lia).
  assert ((c =? 126) = false)%N as -> by (apply N.eqb_neq; lia).
  assert ((c =? 42) = false)%N as -> by (apply N.eqb_neq; lia).
  assert ((c =? 39) = false)%N as -> by (apply N.eqb_neq; lia).
  assert ((c =? 40) = false)%N as -> by (apply N.eqb_neq; lia).
  assert ((c =? 41) = false)%N as -> by (apply N.eqb_neq; lia).
  rewrite !andb_false_r. discriminate.
Qed.

Lemma ascii_not_surrogate c : (c <? 128)%N = true -> isSurrogate c = false.
Proof.
  intros H. apply N.ltb_lt in H.
  unfold isSurrogate, isLeadSurrogate, isTrailSurrogate.
  apply orb_false_iff.
  split; apply andb_false_iff; left; apply N.leb_gt; lia.
Qed.

Lemma unreserved_not_surrogate c : isUnreserved c = true -> isSurrogate c = false.
Proof. intros H. apply ascii_not_surrogate, unreserved_ascii, H. Qed.

Lemma lead_not_trail c : isLeadSurrogate c = true -> isTrailSurrogate c = false.
Proof.
  unfold isLeadSurrogate, isTrailSurrogate.
  rewrite andb_true_iff, andb_false_iff, !N.leb_le, !N.leb_gt. lia.
Qed.

Lemma encodeURIComponent_wellFormed s :
  wellFormed s -> exists r, encodeURIComponent s = Some r.
Proof.
  induction 1 as [|c s Hc _ [r Er]|c d s Hc Hd _ [r Er]].
  - exists []. reflexivity.
  - cbn [encodeURIComponent]. rewrite Er.
    unfold isSurrogate in Hc. apply orb_false_iff in Hc as [-> ->].
    destruct (isUnreserved c); cbn [option_map]; eauto.
  - cbn [encodeURIComponent]. rewrite Er, Hc, Hd, (lead_not_trail c Hc).
    destruct (isUnreserved c) eqn:Eu.
    + apply unreserved_not_surrogate in Eu. unfold isSurrogate in Eu.
      rewrite Hc in Eu. discriminate Eu.
    + cbn [option_map]. eauto.
Qed.

Lemma wellFormed_encodeURIComponent n :
  forall s r,
    List.length s <= n -> encodeURIComponent s = Some r -> wellFormed s.
Proof.
  induction n as [|n IH]; intros s r Hn E.
  - destruct s; [constructor | simpl in Hn; lia].
  - destruct s as [|c s]; [constructor|].
    cbn [List.length] in Hn. cbn [encodeURIComponent] in E.
    destruct (isUnreserved c) eqn:Eu.
    + destruct (encodeURIComponent s) as [r'|] eqn:Er; [|discriminate E].
      apply wf_unit; [apply unreserved_not_surrogate, Eu|].
      apply (IH s r'); [lia | exact Er].
    + destruct (isTrailSurrogate c) eqn:Et; [discriminate E|].
      destruct (isLeadSurrogate c) eqn:El.
      * destruct s as [|d s]; [discriminate E|].
        destruct (isTrailSurrogate d) eqn:Ed; [|discriminate E].
        destruct (encodeURIComponent s) as [r'|] eqn:Er; [|discriminate E].
        cbn [List.length] in Hn.
        apply wf_pair; [exact El | exact Ed|].
        apply (IH s r'); [lia | exact Er].
      * destruct (encodeURIComponent s) as [r'|] eqn:Er; [|discriminate E].
        apply wf_unit; [unfold isSurrogate; rewrite El, Et; reflexivity|].
        apply (IH s r'); [lia | exact Er].
Qed.

(** X14: the download handler stops with a [URIError] exactly when the text
    shown holds an unpaired surrogate: the link is set if and only if the
    text is well-formed UTF-16. *)
Theorem download_fails_exactly_on_unpaired_surrogate st :
  (exists href, downloadHref st = Some href) <-> wellFormed (generatedCode st).
Proof.
  unfold downloadHref. split.
  - intros [href E].
    destruct (encodeURIComponent (generatedCode st)) as [r|] eqn:Er;
      [|discriminate E].
    exact (wellFormed_encodeURIComponent _ _ _ (le_n _) Er).
  - intros H. destruct (encodeURIComponent_wellFormed _ H) as [r ->].
    cbn [option_map]. eauto.
Qed.

Lemma download_fails_exactly_on_unpaired_surrogate_witness :
  let st := generateCode (config js"3.10" js"uv" [55357%N] js"") in
  downloadHref st = None /\ ~ wellFormed (generatedCode st).
Proof.
  intros st.
  assert (downloadHref st = None) as E by (vm_compute; reflexivity).
  split; [exact E|]. intros W.
  apply (proj2 (download_fails_exactly_on_unpaired_surrogate st)) in W.
  destruct W as [href H]. rewrite E in H. discriminate H.
Defined.

(** ** Resolved values *)

Lemma trim_fixed s :
  s <> [] ->
  Js.is_ws (hd 0%N s) = false -> Js.is_ws (last s 0%N) = false ->
  Js.trim s = s.
Proof.
  intros Hne Hh Hl.
  destruct s as [|c s]; [contradiction|]. cbn [hd] in Hh.
  destruct s as [|c' s].
  - unfold Js.trim, Js.trimEnd. cbn. rewrite Hh. cbn. rewrite Hh. reflexivity.
  - assert (c' :: s <> []) as Hne' by discriminate.
    destruct (exists_last Hne') as (m & d & E).
    rewrite E in *.
    change (c :: m ++ [d]) with ((c :: m) ++ [d]) in Hl.
    rewrite last_last in Hl.
    apply trim_fix; assumption.
Qed.

Lemma trim_idem s : Js.trim (Js.trim s) = Js.trim s.
Proof.
  destruct (Js.trim s) as [|c t] eqn:E; [reflexivity|].
  rewrite <- E.
  assert (Js.trim s <> []) as Hne by (rewrite E; discriminate).
  apply trim_fixed; [exact Hne | apply trim_ends, Hne | apply trim_ends, Hne].
Qed.

Lemma resolve_fixed a d :
  Js.trim d = d -> d <> [] ->
  Js.or (Js.trim (Js.or (Js.trim a) d)) d = Js.or (Js.trim a) d.
Proof.
  intros Hd Hne. destruct (Js.trim a) as [|c t] eqn:E; cbn [Js.or].
  - rewrite Hd. apply or_nonempty. exact Hne.
  - rewrite <- E, trim_idem, E. reflexivity.
Qed.

(** X15: the resolved values are fixed points of the resolution: typing
    the requirements text of the script, or its base name, into the field
    it came from (the defaults included) gives the same script again. *)
Theorem resolved_values_reproduce_script st :
  generatedCode (handle (LibrariesInput (requirementsContent st)) st) = code st
  /\ generatedCode (handle (ZipNameInput (zipName st)) st) = code st.
Proof.
  split.
  - change (code (setLibrariesValue (requirementsContent st) st) = code st).
    unfold code, pyShortVersion, pyVersion.
    change (zipName (setLibrariesValue (requirementsContent st) st))
      with (zipName st).
    change (packageManager (setLibrariesValue (requirementsContent st) st))
      with (packageManager st).
    change (selectedVersion (setLibrariesValue (requirementsContent st) st))
      with (selectedVersion st).
    replace (requirementsContent (setLibrariesValue (requirementsContent st) st))
      with (requirementsContent st); [reflexivity|].
    rewrite requirementsContent_set. unfold requirementsContent, libraries.
    symmetry. apply resolve_fixed; [reflexivity | discriminate].
  - change (code (setZipNameValue (zipName st) st) = code st).
    unfold code, pyShortVersion, pyVersion.
    change (requirementsContent (setZipNameValue (zipName st) st))
      with (requirementsContent st).
    change (packageManager (setZipNameValue (zipName st) st))
      with (packageManager st).
    change (selectedVersion (setZipNameValue (zipName st) st))
      with (selectedVersion st).
    replace (zipName (setZipNameValue (zipName st) st))
      with (zipName st); [reflexivity|].
    unfold zipName. cbn [zipNameValue setZipNameValue].
    symmetry. apply resolve_fixed; [reflexivity | discriminate].
Qed.

(** ** The marked package-manager button *)

Lemma marked_manager_step e st :
  pyenvBtnSelected st = Js.eqb (packageManager st) js"pyenv" ->
  uvBtnSelected st = Js.eqb (packageManager st) js"uv" ->
  pyenvBtnSelected (handle e st) = Js.eqb (packageManager (handle e st)) js"pyenv"
  /\ uvBtnSelected (handle e st) = Js.eqb (packageManager (handle e st)) js"uv".
Proof. intros P U. destruct e; split; try assumption; reflexivity. Qed.

Lemma marked_manager_run es :
  forall st,
    pyenvBtnSelected st = Js.eqb (packageManager st) js"pyenv" ->
    uvBtnSelected st = Js.eqb (packageManager st) js"uv" ->
    pyenvBtnSelected (run es st) = Js.eqb (packageManager (run es st)) js"pyenv"
    /\ uvBtnSelected (run es st) = Js.eqb (packageManager (run es st)) js"uv".
Proof.
  induction es as [|e es IH]; intros st P U; [split; assumption|].
  cbn [run fold_left].
  destruct (marked_manager_step e st P U) as [P' U'].
  apply IH; assumption.
Qed.

Lemma unmarked_run es :
  forall st,
    forallb (fun e => negb (isManagerClick e)) es = true ->
    pyenvBtnSelected (run es st) = pyenvBtnSelected st
    /\ uvBtnSelected (run es st) = uvBtnSelected st
    /\ packageManager (run es st) = packageManager st.
Proof.
  induction es as [|e es IH]; intros st H; [auto|].
  cbn [forallb] in H. apply andb_true_iff in H as [He Hes].
  cbn [run fold_left]. destruct (IH (handle e st) Hes) as (P & U & M).
  fold (run es (handle e st)). rewrite P, U, M.
  destruct e; try discriminate He; auto.
Qed.

(** X16: the script marks no manager button at load, so the marks follow
    the selection only from the page on.  If the page comes with the pyenv
    button marked and the uv button not, then after every run of events the
    marked button is the selected package manager.  Marks that start
    otherwise stay as the page has them, beside the selection [pyenv],
    through every run without a click on a manager button. *)
Theorem marked_manager_is_selected libs zip out es :
  (let st := run es (onLoad libs zip out true false) in
   pyenvBtnSelected st = Js.eqb (packageManager st) js"pyenv"
   /\ uvBtnSelected st = Js.eqb (packageManager st) js"uv")
  /\ (forall p u,
        forallb (fun e => negb (isManagerClick e)) es = true ->
        let st := run es (onLoad libs zip out p u) in
        pyenvBtnSelected st = p /\ uvBtnSelected st = u
        /\ packageManager st = js"pyenv").
Proof.
  split.
  - apply marked_manager_run; reflexivity.
  - intros p u H st. exact (unmarked_run es (onLoad libs zip out p u) H).
Qed.

Lemma marked_manager_is_selected_witness :
  let es := [VersionClick js"3.12"; LibrariesInput js"boto3"; CopyClick] in
  forallb (fun e => negb (isManagerClick e)) es = true
  /\ uvBtnSelected (run es (onLoad js"" js"" js"" false true)) = true
  /\ packageManager (run es (onLoad js"" js"" js"" false true)) = js"pyenv".
Proof.
  intros es. split; [reflexivity|].
  destruct (proj2 (marked_manager_is_selected js"" js"" js"" es)
              false true eq_refl) as (_ & U & M).
  split; [exact U | exact M].
Defined.
